(** * gltext: texture-atlas text rendering (font.go)

    A shallow embedding of [font.go] and the properties of its atlas
    builder ([generateAtlas]), draw protocol ([Printf]) and teardown
    ([Delete]).

    - [float32] values are IEEE-754 binary32 numbers, modelled bit-exactly
      with the Standard Library's [SpecFloat] at precision 24 and maximal
      exponent 128 (round to nearest, ties to even, as Go does); every
      operation is rounded on its own, none is fused with another.
    - [int32]/[uint32]/[int] values are [Z] with the wrap-around written out.
    - The OpenGL binding, the TrueType parser/rasterizer and [glh.Pow2] are
      external to the repository; they appear as explicit state, records of
      functions, or section variables. *)

From Stdlib Require Import ZArith List Bool Lia String.
From Stdlib Require Import Floats.SpecFloat.
From stdpp Require Import base list gmap.

Import ListNotations.
Local Open Scope Z_scope.

(** ** Machine integers *)

Definition wrap32 (z : Z) : Z := (z + 2 ^ 31) mod 2 ^ 32 - 2 ^ 31.
Definition in_uint32 (z : Z) : bool := (0 <=? z) && (z <? 2 ^ 32).

(** ** float32 *)

Module F32.

Definition prec : Z := 24.
Definition emax : Z := 128.

Definition float32 := spec_float.

Definition add : float32 -> float32 -> float32 := SFadd prec emax.
Definition sub : float32 -> float32 -> float32 := SFsub prec emax.
Definition mul : float32 -> float32 -> float32 := SFmul prec emax.
Definition div : float32 -> float32 -> float32 := SFdiv prec emax.

  (** Conversion of an integer, as in Go's [float32(n)]. *)
Definition of_Z (n : Z) : float32 := binary_normalize prec emax n 0 false.

Definition zero : float32 := S754_zero false.
Definition one : float32 := of_Z 1.
Definition two : float32 := of_Z 2.
Definition neg_one : float32 := of_Z (-1).

  (** [0 <= x] as Go evaluates it: false on NaN, true on both zeros. *)
Definition nonneg (x : float32) : bool := SFleb zero x.

Definition is_finite (x : float32) : bool :=
    match x with
    | S754_zero _ | S754_finite _ _ _ => true
    | _ => false
    end.

  (** Integer part, rounding toward zero; undefined on infinities and NaN. *)
Definition trunc (x : float32) : option Z :=
    match x with
    | S754_zero _ => Some 0
    | S754_finite s m e =>
        let a := if 0 <=? e then Z.shiftl (Zpos m) e else Z.shiftr (Zpos m) (- e) in
        Some (if s then - a else a)
    | _ => None
    end.

End F32.

Abbreviation float32 := F32.float32.

Declare Scope f32_scope.
Delimit Scope f32_scope with f32.
Infix "+" := F32.add : f32_scope.
Infix "-" := F32.sub : f32_scope.
Infix "*" := F32.mul : f32_scope.
Infix "/" := F32.div : f32_scope.

(** [float64] only carries the dpi and the point size to the rasterizer. *)
Definition float64 := spec_float.
Definition float64_of_Z (n : Z) : float64 := binary_normalize 53 1024 n 0 false.

(** ** Run-time failures *)

Inductive GoAbort :=
| IndexOutOfRange (index : Z) (len : nat)   (* run-time panic *)
| LogFatal.                                 (* log.Fatal: the process exits *)

Inductive Res (A : Type) :=
| Ok (a : A)
| Abort (e : GoAbort).
Arguments Ok {A} a.
Arguments Abort {A} e.

Definition res_bind {A B} (r : Res A) (k : A -> Res B) : Res B :=
  match r with
  | Ok a => k a
  | Abort e => Abort e
  end.

Declare Scope res_scope.
Delimit Scope res_scope with res.
Notation "x <- r ;; k" := (res_bind r (fun x => k))
  (at level 100, r at next level, right associativity) : res_scope.

(** A Go result [(v, err)]: the value when [err] is nil, otherwise the
    error, given by its text. *)
Inductive GoResult (A : Type) :=
| Value (v : A)
| Err (err : string).
Arguments Value {A} v.
Arguments Err {A} err.

(** Slice read [s[i]] and slice write [s[i] = v]; both panic out of range. *)
Definition slice_get {A} (s : list A) (i : Z) : Res A :=
  if (0 <=? i) && (i <? Z.of_nat (length s)) then
    match s !! Z.to_nat i with
    | Some v => Ok v
    | None => Abort (IndexOutOfRange i (length s))
    end
  else Abort (IndexOutOfRange i (length s)).

Definition slice_set {A} (s : list A) (i : Z) (v : A) : Res (list A) :=
  if (0 <=? i) && (i <? Z.of_nat (length s)) then Ok (<[Z.to_nat i := v]> s)
  else Abort (IndexOutOfRange i (length s)).

(** ** External collaborators of the atlas builder *)

(** package truetype: a parsed font answers read-only metric queries. *)
Record Bounds := { XMin : Z; YMin : Z; XMax : Z; YMax : Z }.
Record HMetric := { AdvanceWidth : Z; LeftSideBearing : Z }.
Record TTFont := {
  font_Bounds : Z -> Bounds;            (* font.Bounds(scale) *)
  font_Index : Z -> Z;                  (* font.Index(ch) *)
  font_HMetric : Z -> Z -> HMetric      (* font.HMetric(scale, index) *)
}.

(** package image *)
Record Rectangle := { MinX : Z; MinY : Z; MaxX : Z; MaxY : Z }.

Definition image_Rect (x0 y0 x1 y1 : Z) : Rectangle :=
  let '(x0, x1) := if x1 <? x0 then (x1, x0) else (x0, x1) in
  let '(y0, y1) := if y1 <? y0 then (y1, y0) else (y0, y1) in
  {| MinX := x0; MinY := y0; MaxX := x1; MaxY := y1 |}.

Definition Dx (r : Rectangle) : Z := MaxX r - MinX r.
Definition Dy (r : Rectangle) : Z := MaxY r - MinY r.

(** package freetype: the drawing context.  It owns the destination image,
    so the state of the context stands for the pixels drawn so far. *)
Record Rasterizer := {
  Ctx : Type;
  NewContext : Ctx;
  SetDst : Ctx -> Rectangle -> Ctx;     (* a fresh RGBA image of these bounds *)
  SetClip : Ctx -> Rectangle -> Ctx;
  SetSrc : Ctx -> Ctx;                  (* image.White *)
  SetDPI : Ctx -> float64 -> Ctx;
  SetFontSize : Ctx -> float64 -> Ctx;
  SetFont : Ctx -> TTFont -> Ctx;
  PointToFix32 : Ctx -> float64 -> Z;
  DrawString : Ctx -> Z -> Z * Z -> Ctx (* one rune at freetype.Pt(x, y) *)
}.

(** *image.RGBA: its bounds, and its pixels as left by the context. *)
Record RGBA (R : Rasterizer) := { Rect : Rectangle; Pix : Ctx R }.
Arguments Rect {R} r.
Arguments Pix {R} r.

(** What the Go compiler and [glh] leave to the platform: [glh.Pow2], and
    the value of a float-to-integer conversion whose operand does not fit
    (implementation-specific by the language definition). *)
Record Platform := {
  Pow2 : Z -> Z;
  uint32_unrepresentable : float32 -> Z;
  int_unrepresentable : float32 -> Z
}.

Definition to_uint32 (P : Platform) (f : float32) : Z :=
  match F32.trunc f with
  | Some z => if in_uint32 z then z else uint32_unrepresentable P f mod 2 ^ 32
  | None => uint32_unrepresentable P f mod 2 ^ 32
  end.

Definition to_int (P : Platform) (f : float32) : Z :=
  match F32.trunc f with
  | Some z => if (- 2 ^ 63 <=? z) && (z <? 2 ^ 63) then z
              else int_unrepresentable P f
  | None => int_unrepresentable P f
  end.

(** ** The atlas builder *)

(** [type Vector4 [4]float32] *)
Record Vector4 := V4 { v0 : float32; v1 : float32; v2 : float32; v3 : float32 }.

Definition low : Z := 32.
Definition high : Z := 127.
Definition glyphCount : Z := wrap32 (wrap32 (high - low) + 1).

Section Atlas.

Variable P : Platform.
Variable R : Rasterizer.

  (** The variables the glyph loop of [generateAtlas] updates. *)
Record AtlasLoop := {
    st_gi : Z;
    st_gx : float32;
    st_verts : list Vector4;
    st_offsets : list float32;
    st_c : Ctx R
  }.

Section Body.

Variable font : TTFont.
Variable scale : Z.
Variables sx gw gh w h texWidth texHeight : float32.

    (** [gy] is declared and never assigned. *)
Definition gy : float32 := F32.zero.

    (** One iteration of [for ch := low; ch <= high; ch++]. *)
Definition glyph_step (ch : Z) (st : AtlasLoop) : Res AtlasLoop :=
      (let gi := st_gi st in
       let gx := st_gx st in
       let index := font_Index font ch in
       let metric := font_HMetric font scale index in
       offsets <- slice_set (st_offsets st) gi
                    (F32.of_Z (AdvanceWidth metric) * sx)%f32 ;;
       let pt := (to_int P gx,
                  to_int P gy
                  + Z.shiftr (PointToFix32 R (st_c st) (float64_of_Z scale)) 8) in
       let c := DrawString R (st_c st) ch pt in
       let tx1 := (gx / texWidth)%f32 in
       let ty1 := (gy / texHeight)%f32 in
       let tx2 := ((gx + gw) / texWidth)%f32 in
       let ty2 := ((gy + gh) / texHeight)%f32 in
       let verts := st_verts st ++
                      [ V4 F32.neg_one F32.one tx1 ty1;
                        V4 (F32.neg_one + w)%f32 F32.one tx2 ty1;
                        V4 F32.neg_one (F32.one - h)%f32 tx1 ty2;
                        V4 (F32.neg_one + w)%f32 (F32.one - h)%f32 tx2 ty2 ] in
       Ok {| st_gi := wrap32 (gi + 1);
             st_gx := (gx + gw)%f32;
             st_verts := verts;
             st_offsets := offsets;
             st_c := c |})%res.

    (** [n] iterations starting at character [ch]. *)
Fixpoint glyph_loop (n : nat) (ch : Z) (st : AtlasLoop) : Res AtlasLoop :=
      match n with
      | O => Ok st
      | S n' => (st' <- glyph_step ch st ;; glyph_loop n' (wrap32 (ch + 1)) st')%res
      end.

End Body.

Definition generateAtlas (font : TTFont) (scale : Z) (dpi : float64)
      (width height : float32) : Res (list Vector4 * RGBA R * list float32) :=
    (let offsets0 := replicate (Z.to_nat glyphCount) F32.zero in
     let bounds := font_Bounds font scale in
     let gw := F32.of_Z (wrap32 (XMax bounds - XMin bounds)) in
     let gh := F32.of_Z (wrap32 (YMax bounds - YMin bounds)) in
     let imageWidth := Pow2 P (to_uint32 P (gw * F32.of_Z glyphCount)%f32) in
     let imageHeight := Pow2 P (to_uint32 P gh) in
     let imageBounds := image_Rect 0 0 imageWidth imageHeight in
     let sx := (F32.two / width)%f32 in
     let sy := (F32.two / height)%f32 in
     let w := (gw * sx)%f32 in
     let h := (gh * sy)%f32 in
     let c0 := NewContext R in
     let c1 := SetDst R c0 imageBounds in
     let c2 := SetClip R c1 imageBounds in
     let c3 := SetSrc R c2 in
     let c4 := SetDPI R c3 dpi in
     let c5 := SetFontSize R c4 (float64_of_Z scale) in
     let c6 := SetFont R c5 font in
     let texWidth := F32.of_Z (Dx imageBounds) in
     let texHeight := F32.of_Z (Dy imageBounds) in
     st <- glyph_loop font scale sx gw gh w h texWidth texHeight
             (Z.to_nat (high - low + 1)) low
             {| st_gi := 0; st_gx := F32.zero; st_verts := [];
                st_offsets := offsets0; st_c := c6 |} ;;
     Ok (st_verts st, {| Rect := imageBounds; Pix := st_c st |}, st_offsets st))%res.

End Atlas.

Arguments st_gi {R} a.
Arguments st_gx {R} a.
Arguments st_verts {R} a.
Arguments st_offsets {R} a.
Arguments st_c {R} a.

(** ** The atlas as the specification describes it

    The quantities of steps 1-4 of the builder, written as closed formulas
    of the inputs.  The theorems below relate them to what [generateAtlas]
    returns. *)

Section AtlasSpec.

Variable P : Platform.
Variable font : TTFont.
Variable scale : Z.
Variables width height : float32.

  (** The cell size in pixels. *)
Definition gw_px : float32 :=
    F32.of_Z (wrap32 (XMax (font_Bounds font scale) - XMin (font_Bounds font scale))).
Definition gh_px : float32 :=
    F32.of_Z (wrap32 (YMax (font_Bounds font scale) - YMin (font_Bounds font scale))).

  (** The cell size in whole pixels, as the font reports it, and the
      dimensions the [glyphCount] cells need side by side. *)
Definition cell_width_px : Z :=
    wrap32 (XMax (font_Bounds font scale) - XMin (font_Bounds font scale)).
Definition cell_height_px : Z :=
    wrap32 (YMax (font_Bounds font scale) - YMin (font_Bounds font scale)).
Definition required_width : Z := cell_width_px * glyphCount.
Definition required_height : Z := cell_height_px.

  (** What the builder computes for them, in [float32], and the bounds of
      the bitmap it derives from that. *)
Definition computed_width : float32 := (gw_px * F32.of_Z glyphCount)%f32.
Definition computed_height : float32 := gh_px.
Definition bitmap_bounds : Rectangle :=
    image_Rect 0 0 (Pow2 P (to_uint32 P computed_width))
                   (Pow2 P (to_uint32 P computed_height)).
Definition bitmap_width : Z := Dx bitmap_bounds.
Definition bitmap_height : Z := Dy bitmap_bounds.

  (** Clip-space scale factors and cell size. *)
Definition clip_sx : float32 := (F32.two / width)%f32.
Definition clip_sy : float32 := (F32.two / height)%f32.
Definition cell_w : float32 := (gw_px * clip_sx)%f32.
Definition cell_h : float32 := (gh_px * clip_sy)%f32.

  (** The horizontal pixel offset of glyph [i]: [gw_px] added [i] times. *)
Definition glyph_gx (i : nat) : float32 :=
    Nat.iter i (fun g => (g + gw_px)%f32) F32.zero.

  (** The four vertices of the glyph whose cell starts at pixel [g]. *)
Definition quad_at (g : float32) : list Vector4 :=
    let tw := F32.of_Z bitmap_width in
    let th := F32.of_Z bitmap_height in
    [ V4 F32.neg_one F32.one (g / tw)%f32 (F32.zero / th)%f32;
      V4 (F32.neg_one + cell_w)%f32 F32.one ((g + gw_px) / tw)%f32 (F32.zero / th)%f32;
      V4 F32.neg_one (F32.one - cell_h)%f32 (g / tw)%f32 ((F32.zero + gh_px) / th)%f32;
      V4 (F32.neg_one + cell_w)%f32 (F32.one - cell_h)%f32
         ((g + gw_px) / tw)%f32 ((F32.zero + gh_px) / th)%f32 ].

Definition glyph_quad (i : nat) : list Vector4 := quad_at (glyph_gx i).

  (** The advance of character [ch] in clip space. *)
Definition advance (ch : Z) : float32 :=
    (F32.of_Z (AdvanceWidth (font_HMetric font scale (font_Index font ch))) * clip_sx)%f32.

Definition atlas_verts : list Vector4 := flat_map glyph_quad (seq 0 96).
Definition atlas_offsets : list float32 :=
    map (fun i => advance (low + Z.of_nat i)) (seq 0 96).

End AtlasSpec.

(** ** The OpenGL binding (package gl)

    The state of the GL context that [font.go] reads or changes: the blend
    switch and factors, the current program and the bound objects, the
    names of the objects that exist, and the chronological log of the calls
    received.  Object names are handed out from a counter.  Deleting an
    object removes its name (the deferred destruction of objects still
    attached or in use is not tracked); deleting name 0 is ignored, as in GL. *)

Module gl.

Inductive GLenum :=
  | BLEND | SRC_ALPHA | ONE_MINUS_SRC_ALPHA | ONE | ZERO
  | TRIANGLE_STRIP | ARRAY_BUFFER | STATIC_DRAW | FLOAT
  | TEXTURE0 | TEXTURE_2D | UNPACK_ALIGNMENT
  | TEXTURE_WRAP_S | TEXTURE_WRAP_T | CLAMP_TO_EDGE
  | TEXTURE_MIN_FILTER | TEXTURE_MAG_FILTER | LINEAR
  | RGBA | UNSIGNED_BYTE
  | VERTEX_SHADER | FRAGMENT_SHADER | COMPILE_STATUS | LINK_STATUS.

Definition GLenum_eqb (a b : GLenum) : bool :=
    match a, b with
    | BLEND, BLEND | SRC_ALPHA, SRC_ALPHA
    | ONE_MINUS_SRC_ALPHA, ONE_MINUS_SRC_ALPHA | ONE, ONE | ZERO, ZERO
    | TRIANGLE_STRIP, TRIANGLE_STRIP | ARRAY_BUFFER, ARRAY_BUFFER
    | STATIC_DRAW, STATIC_DRAW | FLOAT, FLOAT | TEXTURE0, TEXTURE0
    | TEXTURE_2D, TEXTURE_2D | UNPACK_ALIGNMENT, UNPACK_ALIGNMENT
    | TEXTURE_WRAP_S, TEXTURE_WRAP_S | TEXTURE_WRAP_T, TEXTURE_WRAP_T
    | CLAMP_TO_EDGE, CLAMP_TO_EDGE | TEXTURE_MIN_FILTER, TEXTURE_MIN_FILTER
    | TEXTURE_MAG_FILTER, TEXTURE_MAG_FILTER | LINEAR, LINEAR | RGBA, RGBA
    | UNSIGNED_BYTE, UNSIGNED_BYTE | VERTEX_SHADER, VERTEX_SHADER
    | FRAGMENT_SHADER, FRAGMENT_SHADER | COMPILE_STATUS, COMPILE_STATUS
    | LINK_STATUS, LINK_STATUS => true
    | _, _ => false
    end.

  (** The calls of the binding, one per function or method of package gl
      that [font.go] calls, with their arguments (and, for the calls that
      create an object, the name returned).  What a query returns is the
      driver's answer, below. *)
Inductive Call :=
  | Enable (cap : GLenum)
  | Disable (cap : GLenum)
  | BlendFunc (sfactor dfactor : GLenum)
  | UseProgram (program : Z)
  | BindVertexArray (array : Z)
  | BindBuffer (target : GLenum) (buffer : Z)
  | BufferData (target : GLenum) (size : Z) (data : list Vector4) (usage : GLenum)
  | VertexAttribPointer (index size : Z) (type : GLenum) (normalized : bool) (stride : Z)
                        (pointer : option Z)           (* [None] is nil *)
  | EnableVertexAttribArray (index : Z)
  | Uniform1i (location v : Z)
  | Uniform2f (location : Z) (x y : float32)
  | Uniform4fv (location count : Z) (v : list float32)
  | DrawArrays (mode : GLenum) (first count : Z)
  | ActiveTexture (texture : GLenum)
  | BindTexture (target : GLenum) (texture : Z)
  | PixelStorei (pname : GLenum) (param : Z)
  | TexParameteri (target pname param : GLenum)
  | TexImage2D (target : GLenum) (level : Z) (internalformat : GLenum)
               (width height border : Z) (format type : GLenum)
               (Pixels : Type) (pixels : Pixels)
  | GenVertexArray (name : Z)
  | GenBuffer (name : Z)
  | GenTexture (name : Z)
  | CreateShader (type : GLenum) (name : Z)
  | ShaderSource (shader : Z) (source : string)
  | CompileShader (shader : Z)
  | CreateProgram (name : Z)
  | AttachShader (program shader : Z)
  | LinkProgram (program : Z)
  | DeleteShader (shader : Z)
  | DeleteProgram (program : Z)
  | DeleteBuffer (buffer : Z)
  | DeleteVertexArray (array : Z)
  | GetShaderiv (shader : Z) (pname : GLenum)          (* Shader.Get *)
  | GetShaderInfoLog (shader : Z)                      (* Shader.GetInfoLog *)
  | GetProgramiv (program : Z) (pname : GLenum)        (* Program.Get *)
  | GetAttribLocation (program : Z) (name : string)
  | GetUniformLocation (program : Z) (name : string).

  (** What the driver answers to the queries. *)
Record Driver := {
    compile_status : GLenum -> string -> Z;    (* Get(COMPILE_STATUS): 0 when compilation failed *)
    link_status : Z -> Z;                      (* Get(LINK_STATUS): 0 when linking failed *)
    info_log : Z -> string;                    (* GetInfoLog *)
    attrib_location : Z -> string -> Z;        (* GetAttribLocation *)
    uniform_location : Z -> string -> Z        (* GetUniformLocation *)
  }.

Inductive Kind := ShaderObj | ProgramObj | BufferObj | VertexArrayObj | TextureObj.

#[global] Instance Kind_eq_dec : EqDecision Kind.
Proof. solve_decision. Defined.

#[global] Instance Kind_countable : Countable Kind :=
    inj_countable'
      (fun k => match k with
                | ShaderObj => 0%nat | ProgramObj => 1%nat | BufferObj => 2%nat
                | VertexArrayObj => 3%nat | TextureObj => 4%nat
                end)
      (fun n => match n with
                | 0%nat => ShaderObj | 1%nat => ProgramObj | 2%nat => BufferObj
                | 3%nat => VertexArrayObj | _ => TextureObj
                end)
      (fun k => match k with
                | ShaderObj | ProgramObj | BufferObj | VertexArrayObj | TextureObj => eq_refl
                end).

Record State := {
    blend : bool;
    blendFunc : GLenum * GLenum;
    currentProgram : Z;
    vertexArrayBinding : Z;
    arrayBufferBinding : Z;
    textureBinding2D : Z;
    objects : gset (Kind * Z);
    nextName : Z;
    calls : list Call;
    messages : list string                     (* the lines package log has written *)
  }.

Definition set_blend (b : bool) (g : State) : State :=
    {| blend := b; blendFunc := blendFunc g; currentProgram := currentProgram g;
       vertexArrayBinding := vertexArrayBinding g;
       arrayBufferBinding := arrayBufferBinding g;
       textureBinding2D := textureBinding2D g; objects := objects g;
       nextName := nextName g; calls := calls g; messages := messages g |}.

Definition set_blendFunc (f : GLenum * GLenum) (g : State) : State :=
    {| blend := blend g; blendFunc := f; currentProgram := currentProgram g;
       vertexArrayBinding := vertexArrayBinding g;
       arrayBufferBinding := arrayBufferBinding g;
       textureBinding2D := textureBinding2D g; objects := objects g;
       nextName := nextName g; calls := calls g; messages := messages g |}.

Definition set_currentProgram (p : Z) (g : State) : State :=
    {| blend := blend g; blendFunc := blendFunc g; currentProgram := p;
       vertexArrayBinding := vertexArrayBinding g;
       arrayBufferBinding := arrayBufferBinding g;
       textureBinding2D := textureBinding2D g; objects := objects g;
       nextName := nextName g; calls := calls g; messages := messages g |}.

Definition set_vertexArrayBinding (a : Z) (g : State) : State :=
    {| blend := blend g; blendFunc := blendFunc g; currentProgram := currentProgram g;
       vertexArrayBinding := a;
       arrayBufferBinding := arrayBufferBinding g;
       textureBinding2D := textureBinding2D g; objects := objects g;
       nextName := nextName g; calls := calls g; messages := messages g |}.

Definition set_arrayBufferBinding (b : Z) (g : State) : State :=
    {| blend := blend g; blendFunc := blendFunc g; currentProgram := currentProgram g;
       vertexArrayBinding := vertexArrayBinding g;
       arrayBufferBinding := b;
       textureBinding2D := textureBinding2D g; objects := objects g;
       nextName := nextName g; calls := calls g; messages := messages g |}.

Definition set_textureBinding2D (t : Z) (g : State) : State :=
    {| blend := blend g; blendFunc := blendFunc g; currentProgram := currentProgram g;
       vertexArrayBinding := vertexArrayBinding g;
       arrayBufferBinding := arrayBufferBinding g;
       textureBinding2D := t; objects := objects g;
       nextName := nextName g; calls := calls g; messages := messages g |}.

Definition set_objects (o : gset (Kind * Z)) (n : Z) (g : State) : State :=
    {| blend := blend g; blendFunc := blendFunc g; currentProgram := currentProgram g;
       vertexArrayBinding := vertexArrayBinding g;
       arrayBufferBinding := arrayBufferBinding g;
       textureBinding2D := textureBinding2D g; objects := o;
       nextName := n; calls := calls g; messages := messages g |}.

Definition logged (call : Call) (g : State) : State :=
    {| blend := blend g; blendFunc := blendFunc g; currentProgram := currentProgram g;
       vertexArrayBinding := vertexArrayBinding g;
       arrayBufferBinding := arrayBufferBinding g;
       textureBinding2D := textureBinding2D g; objects := objects g;
       nextName := nextName g; calls := calls g ++ [call]; messages := messages g |}.

Definition print (msg : string) (g : State) : State :=
    {| blend := blend g; blendFunc := blendFunc g; currentProgram := currentProgram g;
       vertexArrayBinding := vertexArrayBinding g;
       arrayBufferBinding := arrayBufferBinding g;
       textureBinding2D := textureBinding2D g; objects := objects g;
       nextName := nextName g; calls := calls g; messages := messages g ++ [msg] |}.

Definition create (k : Kind) (name : Z) (g : State) : State :=
    set_objects ({[ (k, name) ]} ∪ objects g) (name + 1) g.

Definition delete (k : Kind) (name : Z) (g : State) : State :=
    set_objects (objects g ∖ {[ (k, name) ]}) (nextName g) g.

  (** The effect of one call on the state; every call is logged. *)
Definition step (call : Call) (g : State) : State :=
    logged call
      match call with
      | Enable BLEND => set_blend true g
      | Disable BLEND => set_blend false g
      | BlendFunc sfactor dfactor => set_blendFunc (sfactor, dfactor) g
      | UseProgram p => set_currentProgram p g
      | BindVertexArray a => set_vertexArrayBinding a g
      | BindBuffer ARRAY_BUFFER b => set_arrayBufferBinding b g
      | BindTexture TEXTURE_2D t => set_textureBinding2D t g
      | GenVertexArray n => create VertexArrayObj n g
      | GenBuffer n => create BufferObj n g
      | GenTexture n => create TextureObj n g
      | CreateShader _ n => create ShaderObj n g
      | CreateProgram n => create ProgramObj n g
      | DeleteShader n => delete ShaderObj n g
      | DeleteProgram n => delete ProgramObj n g
      | DeleteBuffer n =>
          delete BufferObj n
            (if (n =? arrayBufferBinding g) && negb (n =? 0)
             then set_arrayBufferBinding 0 g else g)
      | DeleteVertexArray n =>
          delete VertexArrayObj n
            (if (n =? vertexArrayBinding g) && negb (n =? 0)
             then set_vertexArrayBinding 0 g else g)
      | _ => g
      end.

  (** A context in which nothing exists yet, with GL's initial values. *)
Definition initial : State :=
    {| blend := false; blendFunc := (ONE, ZERO); currentProgram := 0;
       vertexArrayBinding := 0; arrayBufferBinding := 0; textureBinding2D := 0;
       objects := ∅; nextName := 1; calls := []; messages := [] |}.

End gl.

(** ** Code that talks to the GL context: state and failure *)

Definition GL (A : Type) : Type := gl.State -> Res A * gl.State.

Definition gl_ret {A} (a : A) : GL A := fun g => (Ok a, g).

Definition gl_bind {A B} (m : GL A) (k : A -> GL B) : GL B :=
  fun g => match m g with
           | (Ok a, g') => k a g'
           | (Abort e, g') => (Abort e, g')
           end.

Definition gl_lift {A} (r : Res A) : GL A := fun g => (r, g).

(** A call that returns nothing, and a call that returns a fresh name. *)
Definition gl_call (call : gl.Call) : GL unit := fun g => (Ok tt, gl.step call g).
Definition gl_gen (mk : Z -> gl.Call) : GL Z :=
  fun g => (Ok (gl.nextName g), gl.step (mk (gl.nextName g)) g).
(** A query: the call is made, the driver's answer [v] is returned. *)
Definition gl_query {A} (call : gl.Call) (v : A) : GL A := fun g => (Ok v, gl.step call g).
Definition log_print (msg : string) : GL unit := fun g => (Ok tt, gl.print msg g).
(** [log.Fatal]: the message is written, then the process exits. *)
Definition log_Fatal {A} (msg : string) : GL A := fun g => (Abort LogFatal, gl.print msg g).

Declare Scope gl_scope.
Delimit Scope gl_scope with gl.
Notation "x <- m ;; k" := (gl_bind m (fun x => k))
  (at level 100, m at next level, right associativity) : gl_scope.
Notation "m ;; k" := (gl_bind m (fun _ => k))
  (at level 100, right associativity) : gl_scope.

(** ** The renderer *)

Record Font := {
  program : Z;
  vs : Z;
  fs : Z;
  positionAttrib : Z;
  colorUniform : Z;
  offsetUniform : Z;
  vao : Z;
  vbo : Z;
  offsets : list float32;
  color : list float32
}.

Definition vertex_shader_source : string :=
"#version 150
    in vec4 position;
    out vec2 texpos;
    uniform vec2 offset;
    void main() {
        gl_Position = vec4(position.xy + offset, 0, 1);
		texpos = position.zw;
    }".

Definition fragment_shader_source : string :=
"#version 150
    in vec2 texpos;
    uniform sampler2D tex;
    uniform vec4 color;
    out vec4  fragColor;
    void main(void) {
        fragColor = texture(tex, texpos) * color;
    }".

Section Renderer.

Variable P : Platform.
Variable R : Rasterizer.
Variable D : gl.Driver.

(** [ioutil.ReadFile] and [freetype.ParseFont]. *)
Variable ReadFile : string -> GoResult (list Byte.byte).
Variable ParseFont : list Byte.byte -> GoResult TTFont.

Definition NewShader (shaderType : gl.GLenum) (source : string) : GL (Z * option string) :=
  (s <- gl_gen (gl.CreateShader shaderType) ;;
   gl_call (gl.ShaderSource s source) ;;
   gl_call (gl.CompileShader s) ;;
   compile_ok <- gl_query (gl.GetShaderiv s gl.COMPILE_STATUS)
                   (gl.compile_status D shaderType source) ;;
   if compile_ok =? 0 then
     (log <- gl_query (gl.GetShaderInfoLog s) (gl.info_log D s) ;;
      gl_ret (0, Some log))
   else gl_ret (s, None))%gl.

Definition NewProgram (vs fs : Z) : GL Z :=
  (program <- gl_gen gl.CreateProgram ;;
   gl_call (gl.AttachShader program vs) ;;
   gl_call (gl.AttachShader program fs) ;;
   gl_call (gl.LinkProgram program) ;;
   link_ok <- gl_query (gl.GetProgramiv program gl.LINK_STATUS)
                (gl.link_status D program) ;;
   (if link_ok =? 0 then log_print "gltext: Error linking shader program"
    else gl_ret tt) ;;
   gl_ret program)%gl.

Definition report (what : string) (err : option string) : GL unit :=
  match err with
  | Some e => (log_print what ;; log_print e)%gl
  | None => gl_ret tt
  end.

Definition createProgram : GL Z :=
  (r <- NewShader gl.VERTEX_SHADER vertex_shader_source ;;
   let '(vs, err) := r in
   report "gltext: Error in vertex shader" err ;;
   r <- NewShader gl.FRAGMENT_SHADER fragment_shader_source ;;
   let '(fs, err) := r in
   report "gltext: Error in fragment shader" err ;;
   NewProgram vs fs)%gl.

(** [log.Fatal(err)] writes the error to the log and ends the process. *)
Definition loadFont (fontPath : string) : GL TTFont :=
  match ReadFile fontPath with
  | Err err => log_Fatal err
  | Value b =>
      match ParseFont b with
      | Err err => log_Fatal err
      | Value font => gl_ret font
      end
  end.

Definition NewFont (fontPath : string) (scale : Z) (dpi : float64)
    (width height : float32) : GL Font :=
  (font <- loadFont fontPath ;;
   atlas <- gl_lift (generateAtlas P R font scale dpi width height) ;;
   let '(coords, texture, offsets) := atlas in
   program <- createProgram ;;

   vao <- gl_gen gl.GenVertexArray ;;
   gl_call (gl.BindVertexArray vao) ;;

   vbo <- gl_gen gl.GenBuffer ;;
   gl_call (gl.BindBuffer gl.ARRAY_BUFFER vbo) ;;
   _ <- gl_lift (slice_get coords 0) ;;
   gl_call (gl.BufferData gl.ARRAY_BUFFER (16 * Z.of_nat (length coords)) coords
              gl.STATIC_DRAW) ;;

   positionAttrib <- gl_query (gl.GetAttribLocation program "position")
                       (gl.attrib_location D program "position") ;;
   gl_call (gl.VertexAttribPointer positionAttrib 4 gl.FLOAT false 0 None) ;;
   gl_call (gl.EnableVertexAttribArray positionAttrib) ;;
   gl_call (gl.BindBuffer gl.ARRAY_BUFFER 0) ;;

   textureUniform <- gl_query (gl.GetUniformLocation program "tex")
                       (gl.uniform_location D program "tex") ;;
   offsetUniform <- gl_query (gl.GetUniformLocation program "offset")
                      (gl.uniform_location D program "offset") ;;
   colorUniform <- gl_query (gl.GetUniformLocation program "color")
                     (gl.uniform_location D program "color") ;;

   gl_call (gl.ActiveTexture gl.TEXTURE0) ;;
   tex <- gl_gen gl.GenTexture ;;
   gl_call (gl.BindTexture gl.TEXTURE_2D tex) ;;
   gl_call (gl.Uniform1i textureUniform 0) ;;

   gl_call (gl.PixelStorei gl.UNPACK_ALIGNMENT 1) ;;
   gl_call (gl.TexParameteri gl.TEXTURE_2D gl.TEXTURE_WRAP_S gl.CLAMP_TO_EDGE) ;;
   gl_call (gl.TexParameteri gl.TEXTURE_2D gl.TEXTURE_WRAP_T gl.CLAMP_TO_EDGE) ;;
   gl_call (gl.TexParameteri gl.TEXTURE_2D gl.TEXTURE_MIN_FILTER gl.LINEAR) ;;
   gl_call (gl.TexParameteri gl.TEXTURE_2D gl.TEXTURE_MAG_FILTER gl.LINEAR) ;;
   gl_call (gl.TexImage2D gl.TEXTURE_2D 0 gl.RGBA (Dx (Rect texture)) (Dy (Rect texture))
              0 gl.RGBA gl.UNSIGNED_BYTE (Ctx R) (Pix texture)) ;;

   gl_call (gl.BindVertexArray 0) ;;

   gl_ret {| program := program;
             vs := 0;
             fs := 0;
             vao := vao;
             vbo := vbo;
             positionAttrib := positionAttrib;
             offsetUniform := offsetUniform;
             colorUniform := colorUniform;
             offsets := offsets;
             color := [F32.one; F32.one; F32.one; F32.one] |})%gl.

End Renderer.

(** The body of [for _, ch := range s]: [s] is the rune sequence of the
    formatted string, [totalOffset] the running offset. *)
Fixpoint draw_runes (this : Font) (x y : float32) (s : list Z)
    (totalOffset : float32) : GL float32 :=
  match s with
  | [] => gl_ret totalOffset
  | ch :: rest =>
      (let index := wrap32 (ch - 32) in
       offset <- gl_lift (slice_get (offsets this) index) ;;
       gl_call (gl.Uniform2f (offsetUniform this) (x + totalOffset)%f32 y) ;;
       gl_call (gl.DrawArrays gl.TRIANGLE_STRIP (index * 4) 4) ;;
       draw_runes this x y rest (totalOffset + offset)%f32)%gl
  end.

(** [Printf], applied to the rune sequence [s] of [fmt.Sprintf(fs, argv...)]. *)
Definition Printf (this : Font) (x y : float32) (s : list Z) : GL unit :=
  (gl_call (gl.Enable gl.BLEND) ;;
   gl_call (gl.BlendFunc gl.SRC_ALPHA gl.ONE_MINUS_SRC_ALPHA) ;;

   gl_call (gl.UseProgram (program this)) ;;
   gl_call (gl.BindVertexArray (vao this)) ;;

   gl_call (gl.Uniform4fv (colorUniform this) 1 (color this)) ;;
   _ <- draw_runes this x y s F32.zero ;;
   gl_call (gl.BindVertexArray 0) ;;
   gl_call (gl.UseProgram 0) ;;
   gl_call (gl.Disable gl.BLEND))%gl.

Definition Delete (this : Font) : GL unit :=
  (gl_call (gl.DeleteShader (vs this)) ;;
   gl_call (gl.DeleteShader (fs this)) ;;
   gl_call (gl.DeleteProgram (program this)) ;;
   gl_call (gl.DeleteBuffer (vbo this)) ;;
   gl_call (gl.DeleteVertexArray (vao this)))%gl.

(** ** Concrete collaborators

    Instances of the external parts, used to evaluate the model. *)

(** Modelled from the spec: [glh.Pow2] is a function of another library and
    is not part of this repository.  The specification calls it
    next-power-of-two, "dimensions rounded up to the next power of two":
    the least power of two that is at least [n], as a [uint32]. *)
Definition next_pow2 (n : Z) : Z := 2 ^ Z.log2_up n mod 2 ^ 32.

Definition spec_platform : Platform :=
  {| Pow2 := next_pow2;
     uint32_unrepresentable := fun _ => 0;
     int_unrepresentable := fun _ => 0 |}.

(** What the specification asks of [Pow2], on the arguments for which a
    power of two fits in a [uint32]. *)
Definition Pow2_contract (P : Platform) : Prop :=
  forall n, 1 <= n <= 2 ^ 31 ->
    exists k, 0 <= k /\ Pow2 P n = 2 ^ k /\ n <= 2 ^ k < 2 * n.

(** A rasterizer that draws nothing, and one that remembers what it was
    asked to draw. *)
Definition null_rasterizer : Rasterizer :=
  {| Ctx := unit;
     NewContext := tt;
     SetDst := fun _ _ => tt;
     SetClip := fun _ _ => tt;
     SetSrc := fun _ => tt;
     SetDPI := fun _ _ => tt;
     SetFontSize := fun _ _ => tt;
     SetFont := fun _ _ => tt;
     PointToFix32 := fun _ _ => 0;
     DrawString := fun _ _ _ => tt |}.

Definition recording_rasterizer : Rasterizer :=
  {| Ctx := list (Z * (Z * Z));
     NewContext := [];
     SetDst := fun c _ => c;
     SetClip := fun c _ => c;
     SetSrc := fun c => c;
     SetDPI := fun c _ => c;
     SetFontSize := fun c _ => c;
     SetFont := fun c _ => c;
     PointToFix32 := fun _ _ => 3072;
     DrawString := fun c ch pt => c ++ [(ch, pt)] |}.

(** A font whose glyphs all sit in a 7 x 12 box and advance by 6. *)
Definition mono_font : TTFont :=
  {| font_Bounds := fun _ => {| XMin := 0; YMin := -2; XMax := 7; YMax := 10 |};
     font_Index := fun ch => ch - 29;
     font_HMetric := fun _ _ => {| AdvanceWidth := 6; LeftSideBearing := 0 |} |}.

(** A driver on which the shaders compile and the program links. *)
Definition good_driver : gl.Driver :=
  {| gl.compile_status := fun _ _ => 1;
     gl.link_status := fun _ => 1;
     gl.info_log := fun _ => EmptyString;
     gl.attrib_location := fun _ _ => 0;
     gl.uniform_location := fun _ name => Z.of_nat (String.length name) |}.

Definition dpi72 : float64 := float64_of_Z 72.

(** The texture coordinates of a vertex, and the part of the builder's
    result that the determinism property is about. *)
Definition texcoord (v : Vector4) : float32 * float32 := (v2 v, v3 v).
Definition position (v : Vector4) : float32 * float32 := (v0 v, v1 v).

Definition atlas_data {R : Rasterizer}
    (r : Res (list Vector4 * RGBA R * list float32)) :
    option (list Vector4 * list float32) :=
  match r with
  | Ok (verts, _, offsets) => Some (verts, offsets)
  | Abort _ => None
  end.

(** ** The draw protocol as the specification describes it *)

(** A sequence of calls received in order. *)
Definition gl_run (cs : list gl.Call) (g : gl.State) : gl.State :=
  fold_left (fun g call => gl.step call g) cs g.

(** The calls for the characters of [s]: for each one, the offset uniform
    set to (x + runningOffset, y), then one triangle strip of 4 vertices
    starting at vertex (character code - 32) * 4, then the running offset
    advanced by the table entry of the glyph. *)
Fixpoint glyph_draws (this : Font) (x y : float32) (s : list Z)
    (runningOffset : float32) : list gl.Call :=
  match s with
  | [] => []
  | ch :: rest =>
      let index := ch - 32 in
      gl.Uniform2f (offsetUniform this) (x + runningOffset)%f32 y
      :: gl.DrawArrays gl.TRIANGLE_STRIP (index * 4) 4
      :: glyph_draws this x y rest
           (runningOffset + nth (Z.to_nat index) (offsets this) F32.zero)%f32
  end.

(** The calls before and after the character loop. *)
Definition Printf_prologue (this : Font) : list gl.Call :=
  [ gl.Enable gl.BLEND;
    gl.BlendFunc gl.SRC_ALPHA gl.ONE_MINUS_SRC_ALPHA;
    gl.UseProgram (program this);
    gl.BindVertexArray (vao this);
    gl.Uniform4fv (colorUniform this) 1 (color this) ].

Definition Printf_epilogue : list gl.Call :=
  [ gl.BindVertexArray 0; gl.UseProgram 0; gl.Disable gl.BLEND ].

Definition is_draw (call : gl.Call) : bool :=
  match call with
  | gl.DrawArrays _ _ _ => true
  | _ => false
  end.

(** The characters the atlas covers. *)
Definition in_glyph_range (ch : Z) : Prop := 32 <= ch <= 127.

(** A rune produced by ranging over a Go string is a Unicode code point. *)
Definition is_rune (ch : Z) : Prop := 0 <= ch <= 1114111.

(** The binary32 numbers nearest to 0.1 and 0.2. *)
Definition tenth : float32 := S754_finite false 13421773 (-27).
Definition fifth : float32 := S754_finite false 13421773 (-26).

(** A renderer whose glyphs all advance by 0.1, as [NewFont] lays it out
    in a fresh context. *)
Definition demo_Font : Font :=
  {| program := 3; vs := 0; fs := 0; positionAttrib := 0;
     colorUniform := 5; offsetUniform := 6; vao := 4; vbo := 5;
     offsets := replicate 96 tenth;
     color := [F32.one; F32.one; F32.one; F32.one] |}.

(** A context in which the host application has enabled blending, made
    program 7 current and bound vertex array 8. *)
Definition busy_context : gl.State :=
  gl.set_vertexArrayBinding 8 (gl.set_currentProgram 7 (gl.set_blend true gl.initial)).

(** The file system and parser of a machine that holds [mono_font]. *)
Definition one_file (path : string) : GoResult (list Byte.byte) :=
  if String.eqb path "mono.ttf" then Value []
  else Err ("open " ++ path ++ ": no such file or directory").
Definition parse_mono (b : list Byte.byte) : GoResult TTFont := Value mono_font.

(** A positive finite binary32 number, and a binary32 number whose sign
    bit is clear (a zero, a positive number or +infinity). *)
Definition positive_finite (x : float32) : bool :=
  match x with
  | S754_finite false _ _ => true
  | _ => false
  end.

Definition sign_clear (x : float32) : bool :=
  match x with
  | S754_zero false | S754_finite false _ _ | S754_infinity false => true
  | _ => false
  end.

(** A font whose bounding box is 22369624 pixels wide and 12 high. *)
Definition wide_font : TTFont :=
  {| font_Bounds := fun _ => {| XMin := 0; YMin := -2; XMax := 22369624; YMax := 10 |};
     font_Index := fun ch => ch - 29;
     font_HMetric := fun _ _ => {| AdvanceWidth := 6; LeftSideBearing := 0 |} |}.

(** A font whose bounding box is 11184811 pixels wide and 12 high. *)
Definition odd_font : TTFont :=
  {| font_Bounds := fun _ => {| XMin := 0; YMin := -2; XMax := 11184811; YMax := 10 |};
     font_Index := fun ch => ch - 29;
     font_HMetric := fun _ _ => {| AdvanceWidth := 6; LeftSideBearing := 0 |} |}.

(** ** Auxiliary notions for the proofs *)

(** Two contexts that differ at most in their call log. *)
Definition same_context (g g' : gl.State) : Prop :=
  gl.blend g' = gl.blend g
  /\ gl.blendFunc g' = gl.blendFunc g
  /\ gl.currentProgram g' = gl.currentProgram g
  /\ gl.vertexArrayBinding g' = gl.vertexArrayBinding g
  /\ gl.arrayBufferBinding g' = gl.arrayBufferBinding g
  /\ gl.textureBinding2D g' = gl.textureBinding2D g
  /\ gl.objects g' = gl.objects g
  /\ gl.nextName g' = gl.nextName g
  /\ gl.messages g' = gl.messages g.

(** [z] is a number of [float32]: a mantissa of at most 24 bits times a
    power of two.  Every whole number up to 2 ^ 24 is one. *)
Definition float32_exact (z : Z) : Prop :=
  exists m k : Z, 0 <= k /\ Z.abs m < 2 ^ 24 /\ z = m * 2 ^ k.

(** The mantissa [m] and exponent [e] stand for the whole number [z]:
    [m * 2 ^ e = z], with both sides multiplied by [2 ^ 149] so that no
    exponent of a [float32] makes a power negative. *)
Definition scaled (m e z : Z) : Prop := m * 2 ^ (e + 149) = z * 2 ^ 149.



(** ** Notions used to describe construction *)

(** The handle and the error that [NewShader] returns for a shader named
    [name], and what [createProgram] logs about it. *)
Definition shader_result (D : gl.Driver) (shaderType : gl.GLenum) (source : string)
    (name : Z) : Z * option string :=
  if gl.compile_status D shaderType source =? 0 then (0, Some (gl.info_log D name))
  else (name, None).

Definition shader_report (what : string) (r : Z * option string) : list string :=
  match snd r with
  | Some e => [what; e]
  | None => []
  end.

Definition link_report (D : gl.Driver) (program : Z) : list string :=
  if gl.link_status D program =? 0 then ["gltext: Error linking shader program"%string]
  else [].

(** The calls [NewShader] makes for a shader named [name]: the info log is
    read only when compilation failed. *)
Definition NewShader_calls (D : gl.Driver) (shaderType : gl.GLenum) (source : string)
    (name : Z) : list gl.Call :=
  [ gl.CreateShader shaderType name;
    gl.ShaderSource name source;
    gl.CompileShader name;
    gl.GetShaderiv name gl.COMPILE_STATUS ]
  ++ (if gl.compile_status D shaderType source =? 0 then [gl.GetShaderInfoLog name]
      else []).

(** The calls [NewProgram] makes for a program named [name]. *)
Definition NewProgram_calls (name vs fs : Z) : list gl.Call :=
  [ gl.CreateProgram name;
    gl.AttachShader name vs;
    gl.AttachShader name fs;
    gl.LinkProgram name;
    gl.GetProgramiv name gl.LINK_STATUS ].

(** The calls [createProgram] makes in a context whose next free name is [n]. *)
Definition createProgram_calls (D : gl.Driver) (n : Z) : list gl.Call :=
  NewShader_calls D gl.VERTEX_SHADER vertex_shader_source n
  ++ NewShader_calls D gl.FRAGMENT_SHADER fragment_shader_source (n + 1)
  ++ NewProgram_calls (n + 2)
       (fst (shader_result D gl.VERTEX_SHADER vertex_shader_source n))
       (fst (shader_result D gl.FRAGMENT_SHADER fragment_shader_source (n + 1))).

(** The calls [NewFont] makes after [createProgram], for an atlas with
    vertices [coords] and bitmap [texture]. *)
Definition NewFont_calls {R : Rasterizer} (D : gl.Driver) (n : Z) (coords : list Vector4)
    (texture : RGBA R) : list gl.Call :=
  [ gl.GenVertexArray (n + 3);
    gl.BindVertexArray (n + 3);
    gl.GenBuffer (n + 4);
    gl.BindBuffer gl.ARRAY_BUFFER (n + 4);
    gl.BufferData gl.ARRAY_BUFFER (16 * Z.of_nat (length coords)) coords gl.STATIC_DRAW;
    gl.GetAttribLocation (n + 2) "position";
    gl.VertexAttribPointer (gl.attrib_location D (n + 2) "position") 4 gl.FLOAT false 0
      None;
    gl.EnableVertexAttribArray (gl.attrib_location D (n + 2) "position");
    gl.BindBuffer gl.ARRAY_BUFFER 0;
    gl.GetUniformLocation (n + 2) "tex";
    gl.GetUniformLocation (n + 2) "offset";
    gl.GetUniformLocation (n + 2) "color";
    gl.ActiveTexture gl.TEXTURE0;
    gl.GenTexture (n + 5);
    gl.BindTexture gl.TEXTURE_2D (n + 5);
    gl.Uniform1i (gl.uniform_location D (n + 2) "tex") 0;
    gl.PixelStorei gl.UNPACK_ALIGNMENT 1;
    gl.TexParameteri gl.TEXTURE_2D gl.TEXTURE_WRAP_S gl.CLAMP_TO_EDGE;
    gl.TexParameteri gl.TEXTURE_2D gl.TEXTURE_WRAP_T gl.CLAMP_TO_EDGE;
    gl.TexParameteri gl.TEXTURE_2D gl.TEXTURE_MIN_FILTER gl.LINEAR;
    gl.TexParameteri gl.TEXTURE_2D gl.TEXTURE_MAG_FILTER gl.LINEAR;
    gl.TexImage2D gl.TEXTURE_2D 0 gl.RGBA (Dx (Rect texture)) (Dy (Rect texture)) 0 gl.RGBA
      gl.UNSIGNED_BYTE (Ctx R) (Pix texture);
    gl.BindVertexArray 0 ].

(** A driver on which the vertex shader does not compile and the program
    does not link. *)
Definition bad_driver : gl.Driver :=
  {| gl.compile_status := fun shaderType _ =>
       match shaderType with gl.VERTEX_SHADER => 0 | _ => 1 end;
     gl.link_status := fun _ => 0;
     gl.info_log := fun _ => "0:1: syntax error"%string;
     gl.attrib_location := fun _ _ => -1;
     gl.uniform_location := fun _ _ => -1 |}.

(** A file system with no font file, and a parser that accepts nothing. *)
Definition no_file (path : string) : GoResult (list Byte.byte) :=
  Err ("open " ++ path ++ ": no such file or directory").
Definition parse_nothing (b : list Byte.byte) : GoResult TTFont :=
  Err "freetype: invalid TrueType format: TTF data is too short"%string.

(** The renderer [NewFont] returns in a context whose next free name is
    [n], for a font whose advance table is [offs]. *)
Definition NewFont_result (D : gl.Driver) (n : Z) (offs : list float32) : Font :=
  {| program := n + 2;
     vs := 0;
     fs := 0;
     positionAttrib := gl.attrib_location D (n + 2) "position";
     colorUniform := gl.uniform_location D (n + 2) "color";
     offsetUniform := gl.uniform_location D (n + 2) "offset";
     vao := n + 3;
     vbo := n + 4;
     offsets := offs;
     color := [F32.one; F32.one; F32.one; F32.one] |}.

(** What [createProgram] writes to the log in a context whose next free
    name is [n]. *)
Definition createProgram_messages (D : gl.Driver) (n : Z) : list string :=
  shader_report "gltext: Error in vertex shader"
    (shader_result D gl.VERTEX_SHADER vertex_shader_source n)
  ++ shader_report "gltext: Error in fragment shader"
       (shader_result D gl.FRAGMENT_SHADER fragment_shader_source (n + 1))
  ++ link_report D (n + 2).

Definition is_UseProgram (call : gl.Call) : bool :=
  match call with
  | gl.UseProgram _ => true
  | _ => false
  end.

(** A call that, if it is a draw, is a triangle strip of four vertices
    that starts at a multiple of four and ends inside a buffer of [n]
    vertices. *)
Definition draw_within (n : Z) (call : gl.Call) : Prop :=
  match call with
  | gl.DrawArrays mode first count =>
      mode = gl.TRIANGLE_STRIP /\ count = 4 /\ (4 | first) /\ 0 <= first /\ first + count <= n
  | _ => True
  end.

(** ** The rasterizer's part in the atlas *)

Section AtlasPixels.

Variable P : Platform.
Variable R : Rasterizer.
Variable font : TTFont.
Variable scale : Z.
Variable dpi : float64.

  (** The drawing context once it is set up: destination and clip are the
      bitmap, the source is white, then resolution, size and font. *)
Definition context_setup : Ctx R :=
    SetFont R
      (SetFontSize R
         (SetDPI R
            (SetSrc R
               (SetClip R (SetDst R (NewContext R) (bitmap_bounds P font scale))
                  (bitmap_bounds P font scale)))
            dpi)
         (float64_of_Z scale))
      font.

  (** Glyph [i] drawn into context [c]: character [32 + i], pen at the
      cell's left edge and at the baseline the context computes for the
      font size. *)
Definition draw_glyph (c : Ctx R) (i : nat) : Ctx R :=
    DrawString R c (low + Z.of_nat i)
      (to_int P (glyph_gx font scale i),
       to_int P F32.zero + Z.shiftr (PointToFix32 R c (float64_of_Z scale)) 8).

Definition atlas_pixels : Ctx R := fold_left draw_glyph (seq 0 96) context_setup.

End AtlasPixels.
(** * Facts about binary32 arithmetic *)

Module F32Facts.

Import F32.

(** [iter_pos] is iteration a number of times. *)
Lemma iter_pos_nat {A} (f : A -> A) (p : positive) :
  forall x, SpecFloat.iter_pos f p x = Nat.iter (Pos.to_nat p) f x.
Proof.
  induction p as [p IH|p IH|]; intros x; cbn [SpecFloat.iter_pos].
  - rewrite !IH, Pos2Nat.inj_xI.
    replace (S (2 * Pos.to_nat p)) with (Pos.to_nat p + (Pos.to_nat p + 1))%nat by lia.
    rewrite !Nat.iter_add. reflexivity.
  - rewrite !IH, Pos2Nat.inj_xO.
    replace (2 * Pos.to_nat p)%nat with (Pos.to_nat p + Pos.to_nat p)%nat by lia.
    rewrite Nat.iter_add. reflexivity.
  - reflexivity.
Qed.

(** A right shift halves the mantissa of the record. *)
Lemma shr_m_shr_1 mrs : 0 <= shr_m mrs -> shr_m (shr_1 mrs) = shr_m mrs / 2.
Proof.
  destruct mrs as [m r s]. cbn [shr_m]. intros Hm.
  destruct m as [|[p|p|]|p]; cbn [shr_1 shr_m]; try lia.
  - reflexivity.
  - apply (Z.div_unique _ _ _ 1); lia.
  - apply (Z.div_unique _ _ _ 0); lia.
  - reflexivity.
Qed.

Lemma shr_m_iter (n : nat) :
  forall mrs, 0 <= shr_m mrs ->
    shr_m (Nat.iter n shr_1 mrs) = shr_m mrs / 2 ^ Z.of_nat n.
Proof.
  induction n as [|n IH]; intros mrs Hm.
  - simpl. rewrite Z.div_1_r. reflexivity.
  - rewrite Nat.iter_succ, shr_m_shr_1.
    + rewrite IH by assumption.
      rewrite Nat2Z.inj_succ, Z.pow_succ_r by lia.
      rewrite Z.div_div by lia. f_equal. lia.
    + rewrite IH by assumption. apply Z.div_pos; lia.
Qed.

(** The mantissa after [shr]: divided by [2 ^ n] when [n] is positive. *)
Lemma shr_m_shr mrs e n :
  0 <= shr_m mrs ->
  shr_m (fst (shr mrs e n)) = shr_m mrs / 2 ^ Z.max 0 n
  /\ snd (shr mrs e n) = e + Z.max 0 n.
Proof.
  intros Hm. destruct n as [|p|p]; cbn [shr fst snd].
  - rewrite Z.div_1_r. lia.
  - rewrite iter_pos_nat, shr_m_iter by assumption.
    rewrite positive_nat_Z. replace (Z.max 0 (Z.pos p)) with (Z.pos p) by lia. auto.
  - replace (Z.max 0 (Z.neg p)) with 0 by lia. rewrite Z.div_1_r. lia.
Qed.

Lemma shr_m_record_of_loc m l : shr_m (shr_record_of_loc m l) = m.
Proof. destruct l as [|[]]; reflexivity. Qed.

(** [digits2_pos] counts the binary digits. *)
Lemma digits2_pos_bounds (m : positive) :
  2 ^ Z.pos (digits2_pos m) <= 2 * Z.pos m /\ Z.pos m < 2 ^ Z.pos (digits2_pos m).
Proof.
  induction m as [m IH|m IH|]; cbn [digits2_pos].
  - rewrite Pos2Z.inj_succ, Z.pow_succ_r by lia. lia.
  - rewrite Pos2Z.inj_succ, Z.pow_succ_r by lia. lia.
  - simpl. lia.
Qed.

(** Shifting by fewer bits than the number has digits leaves it positive. *)
Lemma shr_fexp_pos (m : positive) e l :
  - 149 <= e ->
  0 < shr_m (fst (shr_fexp prec emax (Z.pos m) e l))
  /\ e <= snd (shr_fexp prec emax (Z.pos m) e l).
Proof.
  intros He. unfold shr_fexp.
  set (n := fexp prec emax (Zdigits2 (Z.pos m) + e) - e).
  destruct (shr_m_shr (shr_record_of_loc (Z.pos m) l) e n) as [Hm He'].
  { rewrite shr_m_record_of_loc. lia. }
  rewrite Hm, He', shr_m_record_of_loc. split; [|lia].
  pose proof (digits2_pos_bounds m) as [Hlo _].
  assert (Hn : Z.max 0 n <= Z.pos (digits2_pos m) - 1).
  { unfold n, fexp, SpecFloat.emin, prec, emax. cbn [Zdigits2]. lia. }
  apply Z.div_str_pos. split; [lia|].
  assert (2 * 2 ^ Z.max 0 n <= 2 ^ Z.pos (digits2_pos m)); [|lia].
  rewrite <- Z.pow_succ_r by lia. apply Z.pow_le_mono_r; lia.
Qed.

Lemma round_nearest_even_pos m l : 0 < m -> 0 < round_nearest_even m l.
Proof. intros Hm. destruct l as [|[]]; cbn [round_nearest_even]; try lia. destruct (Z.even m); lia. Qed.

(** Rounding a positive mantissa keeps the sign and never yields a zero
    or a NaN, as long as the exponent is at least that of the smallest
    subnormal. *)
Lemma binary_round_aux_nonzero s (m : positive) e l :
  - 149 <= e ->
  (exists m' e', binary_round_aux prec emax s (Z.pos m) e l = S754_finite s m' e')
  \/ binary_round_aux prec emax s (Z.pos m) e l = S754_infinity s.
Proof.
  intros He. unfold binary_round_aux.
  destruct (shr_fexp_pos m e l He) as [Hm1 He1].
  destruct (shr_fexp prec emax (Z.pos m) e l) as [mrs1 e1]. cbn [fst snd] in *.
  pose proof (round_nearest_even_pos _ (loc_of_shr_record mrs1) Hm1) as Hm2.
  destruct (round_nearest_even (shr_m mrs1) (loc_of_shr_record mrs1)) as [|m2|m2]; try lia.
  destruct (shr_fexp_pos m2 e1 loc_Exact ltac:(lia)) as [Hm3 He3].
  destruct (shr_fexp prec emax (Z.pos m2) e1 loc_Exact) as [mrs3 e3]. cbn [fst snd] in *.
  destruct (shr_m mrs3) as [|m3|m3]; try lia.
  destruct (e3 <=? emax - prec); [left; eauto | right; reflexivity].
Qed.

Lemma shl_align_exp m e e' : Z.min e e' <= snd (shl_align m e e') <= e.
Proof. unfold shl_align. destruct (e' - e) eqn:E; cbn [snd]; lia. Qed.

Lemma binary_round_nonzero s (m : positive) e :
  - 125 <= e ->
  (exists m' e', binary_round prec emax s m e = S754_finite s m' e')
  \/ binary_round prec emax s m e = S754_infinity s.
Proof.
  intros He. unfold binary_round.
  pose proof (shl_align_exp m e (fexp prec emax (Z.pos (digits2_pos m) + e))) as Hs.
  destruct (shl_align m e _) as [mz ez]. cbn [snd] in Hs.
  apply binary_round_aux_nonzero.
  revert Hs. unfold fexp, SpecFloat.emin, prec, emax.
  pose proof (Pos2Z.is_pos (digits2_pos m)). lia.
Qed.

(** The conversion of an integer is never the negative zero. *)
Lemma of_Z_cases z :
  (z = 0 /\ of_Z z = S754_zero false)
  \/ (z <> 0 /\ exists m e, of_Z z = S754_finite (z <? 0) m e)
  \/ (z <> 0 /\ of_Z z = S754_infinity (z <? 0)).
Proof.
  unfold of_Z. destruct z as [|p|p]; cbn [binary_normalize].
  - left. auto.
  - right. destruct (binary_round_nonzero false p 0 ltac:(lia)) as [H|H]; [left|right]; split; auto; lia.
  - right. destruct (binary_round_nonzero true p 0 ltac:(lia)) as [H|H]; [left|right]; split; auto; lia.
Qed.

Lemma add_zero_of_Z z : add zero (of_Z z) = of_Z z.
Proof.
  destruct (of_Z_cases z) as [[_ H]|[[_ (m & e & H)]|[_ H]]]; rewrite H; reflexivity.
Qed.

End F32Facts.
(** * Properties of the atlas builder *)

Lemma wrap32_small z : - 2 ^ 31 <= z < 2 ^ 31 -> wrap32 z = z.
Proof. intros Hz. unfold wrap32. rewrite Z.mod_small; lia. Qed.

Lemma glyphCount_96 : glyphCount = 96.
Proof. reflexivity. Qed.

Lemma flat_map_seq_S {A} (f : nat -> list A) (n k : nat) :
  flat_map f (seq (S k) n) = flat_map (fun j => f (S j)) (seq k n).
Proof.
  revert k. induction n as [|n IH]; intros k; cbn [seq flat_map]; [reflexivity|].
  f_equal. apply IH.
Qed.

Section AtlasFacts.

Variable P : Platform.
Variable R : Rasterizer.
Variable font : TTFont.
Variable scale : Z.
Variables width height : float32.

Let loop := glyph_loop P R font scale (clip_sx width)
              (gw_px font scale) (gh_px font scale)
              (cell_w font scale width) (cell_h font scale height)
              (F32.of_Z (bitmap_width P font scale))
              (F32.of_Z (bitmap_height P font scale)).

Let grow (g : float32) : float32 := (g + gw_px font scale)%f32.

(** What [n] rounds of the loop do to a state that has seen [k] glyphs. *)
Lemma glyph_loop_spec (n : nat) :
  forall (k : nat) (st : AtlasLoop R),
    st_gi st = Z.of_nat k ->
    (k + n <= 96)%nat ->
    length (st_offsets st) = 96%nat ->
    exists st',
      loop n (low + Z.of_nat k) st = Ok st'
      /\ st_gi st' = Z.of_nat (k + n)
      /\ st_gx st' = Nat.iter n grow (st_gx st)
      /\ st_verts st' =
           st_verts st
           ++ flat_map (fun j => quad_at P font scale width height (Nat.iter j grow (st_gx st)))
                       (seq 0 n)
      /\ st_offsets st' =
           take k (st_offsets st)
           ++ map (fun i => advance font scale width (low + Z.of_nat i)) (seq k n)
           ++ drop (k + n) (st_offsets st).
Proof.
  induction n as [|n IH]; intros k st Hgi Hk Hlen.
  - exists st. simpl. rewrite Nat.add_0_r, app_nil_r, take_drop, Hgi. auto.
  - assert (Hset : slice_set (st_offsets st) (st_gi st)
                     (advance font scale width (low + Z.of_nat k))
                   = Ok (<[k := advance font scale width (low + Z.of_nat k)]> (st_offsets st))).
    { unfold slice_set. rewrite Hgi, Hlen, Nat2Z.id.
      replace ((0 <=? Z.of_nat k) && (Z.of_nat k <? Z.of_nat 96)) with true; [reflexivity|].
      symmetry. apply andb_true_iff. split; [apply Z.leb_le | apply Z.ltb_lt]; lia. }
    unfold loop. cbn [glyph_loop]. unfold glyph_step.
    fold (advance font scale width (low + Z.of_nat k)).
    rewrite Hset. cbn [res_bind].
    match goal with
    | |- context [glyph_loop _ _ _ _ _ _ _ _ _ _ _ n ?ch ?s] =>
        destruct (IH (S k) s) as (st' & Hrun & Hgi' & Hgx' & Hv' & Ho')
    end.
    + cbn [st_gi]. rewrite Hgi, wrap32_small by lia. lia.
    + lia.
    + cbn [st_offsets]. rewrite length_insert. exact Hlen.
    + exists st'. cbn [st_gi st_gx st_verts st_offsets] in *.
      replace (wrap32 (low + Z.of_nat k + 1)) with (low + Z.of_nat (S k))
        by (rewrite wrap32_small; unfold low; lia).
      unfold loop in Hrun. rewrite Hrun.
      split; [reflexivity|]. split; [rewrite Hgi'; f_equal; lia|].
      split; [rewrite Hgx', Nat.iter_succ_r; reflexivity|].
      split.
      * rewrite Hv'. rewrite <- app_assoc. f_equal.
        change (seq 0 (S n)) with (0%nat :: seq 1 n).
        cbn [flat_map Nat.iter]. rewrite flat_map_seq_S. unfold gy.
        f_equal. apply flat_map_ext. intros j. rewrite Nat.iter_succ_r. reflexivity.
      * rewrite Ho'. rewrite drop_insert_lt by lia.
        rewrite (take_S_r _ _ (advance font scale width (low + Z.of_nat k)))
          by (apply list_lookup_insert_eq; lia).
        rewrite take_insert_ge by lia.
        replace (S k + n)%nat with (k + S n)%nat by lia.
        cbn [seq map]. rewrite <- app_assoc. reflexivity.
Qed.

End AtlasFacts.

(** Blocks of four in a concatenation of four-element groups. *)
Lemma drop_flat_map_blocks {A} (f : nat -> list A) :
  (forall j, length (f j) = 4%nat) ->
  forall (i n s : nat), (i < n)%nat ->
    drop (4 * i) (flat_map f (seq s n))
    = f (s + i)%nat ++ flat_map f (seq (s + S i) (n - S i)).
Proof.
  intros Hlen. induction i as [|i IH]; intros n s Hi.
  - destruct n as [|n]; [lia|]. rewrite Nat.mul_0_r. cbn [seq flat_map drop].
    replace (s + 0)%nat with s by lia. replace (s + 1)%nat with (S s) by lia.
    replace (S n - 1)%nat with n by lia. reflexivity.
  - destruct n as [|n]; [lia|]. cbn [seq flat_map].
    replace (4 * S i)%nat with (length (f s) + 4 * i)%nat by (rewrite Hlen; lia).
    rewrite drop_app_add, IH by lia.
    replace (S s + i)%nat with (s + S i)%nat by lia.
    replace (S s + S i)%nat with (s + S (S i))%nat by lia.
    reflexivity.
Qed.

Lemma take_drop_flat_map_blocks {A} (f : nat -> list A) (n i : nat) :
  (forall j, length (f j) = 4%nat) -> (i < n)%nat ->
  take 4 (drop (4 * i) (flat_map f (seq 0 n))) = f i.
Proof.
  intros Hlen Hi. rewrite (drop_flat_map_blocks f Hlen) by assumption.
  cbn [Nat.add]. apply take_app_length'. symmetry. apply Hlen.
Qed.

Lemma lookup_flat_map_blocks {A} (f : nat -> list A) (n i k : nat) :
  (forall j, length (f j) = 4%nat) -> (i < n)%nat -> (k < 4)%nat ->
  flat_map f (seq 0 n) !! (4 * i + k)%nat = f i !! k.
Proof.
  intros Hlen Hi Hk. rewrite <- lookup_drop, (drop_flat_map_blocks f Hlen) by assumption.
  cbn [Nat.add]. apply lookup_app_l. rewrite Hlen. exact Hk.
Qed.

Lemma length_flat_map_blocks {A} (f : nat -> list A) (n s : nat) :
  (forall j, length (f j) = 4%nat) -> length (flat_map f (seq s n)) = (4 * n)%nat.
Proof.
  intros Hlen. revert s. induction n as [|n IH]; intros s; cbn [seq flat_map]; [reflexivity|].
  rewrite length_app, Hlen, IH. lia.
Qed.

Section AtlasResult.

Variable P : Platform.
Variable R : Rasterizer.
Variable font : TTFont.
Variable scale : Z.
Variable dpi : float64.
Variables width height : float32.

(** [generateAtlas] returns, and returns the atlas of the specification. *)
Lemma generateAtlas_spec :
  exists img : RGBA R,
    generateAtlas P R font scale dpi width height
    = Ok (atlas_verts P font scale width height, img, atlas_offsets font scale width)
    /\ Rect img = bitmap_bounds P font scale.
Proof.
  unfold generateAtlas.
  match goal with
  | |- context [glyph_loop _ _ _ _ _ _ _ _ _ _ _ ?n ?ch ?st] =>
      destruct (glyph_loop_spec P R font scale width height 96 0 st)
        as (st' & Hrun & _ & _ & Hv & Ho); [reflexivity | lia | reflexivity |]
  end.
  change (Z.to_nat (high - low + 1)) with 96%nat.
  change (low + Z.of_nat 0) with low in Hrun.
  unfold clip_sx, cell_w, cell_h, clip_sx, clip_sy, gw_px, gh_px, bitmap_width,
    bitmap_height, bitmap_bounds, computed_width, computed_height, gw_px, gh_px in Hrun.
  rewrite Hrun. cbn [res_bind].
  assert (Hv' : st_verts st' = atlas_verts P font scale width height).
  { rewrite Hv. cbn [st_verts app]. unfold atlas_verts, glyph_quad, glyph_gx. reflexivity. }
  assert (Ho' : st_offsets st' = atlas_offsets font scale width).
  { rewrite Ho. cbn [st_offsets]. rewrite take_0, drop_ge, app_nil_r by reflexivity.
    reflexivity. }
  rewrite Hv', Ho'.
  exists {| Rect := bitmap_bounds P font scale; Pix := st_c st' |}.
  split; reflexivity.
Qed.

Lemma length_glyph_quad i : length (glyph_quad P font scale width height i) = 4%nat.
Proof. reflexivity. Qed.

Lemma length_atlas_verts : length (atlas_verts P font scale width height) = 384%nat.
Proof. unfold atlas_verts. rewrite length_flat_map_blocks; [reflexivity|]. apply length_glyph_quad. Qed.

Lemma length_atlas_offsets : length (atlas_offsets font scale width) = 96%nat.
Proof. reflexivity. Qed.

Lemma lookup_atlas_offsets (i : nat) :
  (i < 96)%nat ->
  atlas_offsets font scale width !! i = Some (advance font scale width (low + Z.of_nat i)).
Proof.
  intros Hi. unfold atlas_offsets.
  change (map ?f ?l) with (f <$> l).
  rewrite list_lookup_fmap, lookup_seq_lt by assumption. reflexivity.
Qed.

End AtlasResult.

(** ** Claims about the atlas builder *)

(** C1. For every platform, rasterizer, font, scale, dpi and viewport,
    [generateAtlas] returns; the vertex sequence has 4 * 96 = 384 records,
    the advance table 96 entries, and for every glyph index [i] the four
    records at positions [4i, 4i+4) are the quad of glyph [i], that is of
    character code [32 + i], whose advance is entry [i] of the table. *)
Theorem generateAtlas_layout (P : Platform) (R : Rasterizer) (font : TTFont)
    (scale : Z) (dpi : float64) (width height : float32) :
  exists (verts : list Vector4) (img : RGBA R) (offsets : list float32),
    generateAtlas P R font scale dpi width height = Ok (verts, img, offsets)
    /\ length verts = 384%nat
    /\ length offsets = 96%nat
    /\ forall i : nat, (i < 96)%nat ->
         take 4 (drop (4 * i) verts) = glyph_quad P font scale width height i
         /\ offsets !! i = Some (advance font scale width (32 + Z.of_nat i)).
Proof.
  destruct (generateAtlas_spec P R font scale dpi width height) as (img & Hrun & _).
  exists (atlas_verts P font scale width height), img, (atlas_offsets font scale width).
  split; [exact Hrun|].
  split; [apply length_atlas_verts|].
  split; [apply length_atlas_offsets|].
  intros i Hi. split.
  - unfold atlas_verts. apply take_drop_flat_map_blocks; [reflexivity | exact Hi].
  - apply lookup_atlas_offsets. exact Hi.
Qed.

Lemma generateAtlas_layout_witness :
  exists (verts : list Vector4) (img : RGBA null_rasterizer) (offsets : list float32),
    generateAtlas spec_platform null_rasterizer mono_font 12 dpi72
      (F32.of_Z 800) (F32.of_Z 600) = Ok (verts, img, offsets)
    /\ length verts = 384%nat
    /\ length offsets = 96%nat
    /\ ((33 < 96)%nat ->
         take 4 (drop (4 * 33) verts)
         = glyph_quad spec_platform mono_font 12 (F32.of_Z 800) (F32.of_Z 600) 33
         /\ offsets !! 33%nat
            = Some (advance mono_font 12 (F32.of_Z 800) (32 + Z.of_nat 33))).
Proof.
  destruct (generateAtlas_layout spec_platform null_rasterizer mono_font 12 dpi72
              (F32.of_Z 800) (F32.of_Z 600)) as (verts & img & offsets & H1 & H2 & H3 & H4).
  exists verts, img, offsets. repeat split; try assumption; apply (H4 33%nat); assumption.
Defined.

Lemma texcoord_glyph_quads P font scale width height width' height' (l : list nat) :
  map texcoord (flat_map (glyph_quad P font scale width' height') l)
  = map texcoord (flat_map (glyph_quad P font scale width height) l).
Proof.
  induction l as [|i l IH]; [reflexivity|].
  cbn [flat_map]. rewrite !map_app, IH. reflexivity.
Qed.

(** C3. For every glyph index [i] of the range, the four vertices emitted
    for it are, in the order top-left, top-right, bottom-left, bottom-right,
    the corners (-1, 1), (-1+w, 1), (-1, 1-h), (-1+w, 1-h) with
    w = gw_px * (2 / viewportWidth) and h = gh_px * (2 / viewportHeight), and
    their texture coordinates are (gx, 0, gx + gw_px, gh_px) divided by the
    bitmap width and height, [gx] being [gw_px] added [i] times to 0.
    Building with any other viewport gives the same texture coordinates at
    every vertex; only [w] and [h] change, through the factors 2 / width and
    2 / height. *)
Theorem glyph_quad_coordinates (P : Platform) (R : Rasterizer) (font : TTFont)
    (scale : Z) (dpi : float64) (width height : float32) (i : nat) :
  (i < 96)%nat ->
  let b := font_Bounds font scale in
  let gw := F32.of_Z (wrap32 (XMax b - XMin b)) in
  let gh := F32.of_Z (wrap32 (YMax b - YMin b)) in
  let w := (gw * (F32.two / width))%f32 in
  let h := (gh * (F32.two / height))%f32 in
  let tw := F32.of_Z (bitmap_width P font scale) in
  let th := F32.of_Z (bitmap_height P font scale) in
  let gx := Nat.iter i (fun g => (g + gw)%f32) F32.zero in
  exists (verts : list Vector4) (img : RGBA R) (offsets : list float32),
    generateAtlas P R font scale dpi width height = Ok (verts, img, offsets)
    /\ take 4 (drop (4 * i) verts)
       = [ V4 F32.neg_one F32.one (gx / tw)%f32 (F32.zero / th)%f32;
           V4 (F32.neg_one + w)%f32 F32.one ((gx + gw) / tw)%f32 (F32.zero / th)%f32;
           V4 F32.neg_one (F32.one - h)%f32 (gx / tw)%f32 (gh / th)%f32;
           V4 (F32.neg_one + w)%f32 (F32.one - h)%f32 ((gx + gw) / tw)%f32 (gh / th)%f32 ]
    /\ forall width' height' : float32,
         exists (verts' : list Vector4) (img' : RGBA R) (offsets' : list float32),
           generateAtlas P R font scale dpi width' height' = Ok (verts', img', offsets')
           /\ map texcoord verts' = map texcoord verts.
Proof.
  intros Hi b gw gh w h tw th gx.
  destruct (generateAtlas_spec P R font scale dpi width height) as (img & Hrun & _).
  exists (atlas_verts P font scale width height), img, (atlas_offsets font scale width).
  split; [exact Hrun|]. split.
  - unfold atlas_verts.
    rewrite take_drop_flat_map_blocks by (reflexivity || exact Hi).
    unfold glyph_quad, quad_at, glyph_gx, cell_w, cell_h, clip_sx, clip_sy, gw_px, gh_px.
    fold b. fold gw. fold gh.
    replace (F32.zero + gh)%f32 with gh by (symmetry; apply F32Facts.add_zero_of_Z).
    reflexivity.
  - intros width' height'.
    destruct (generateAtlas_spec P R font scale dpi width' height') as (img' & Hrun' & _).
    exists (atlas_verts P font scale width' height'), img', (atlas_offsets font scale width').
    split; [exact Hrun'|]. apply texcoord_glyph_quads.
Qed.

Lemma glyph_quad_coordinates_witness :
  (65 < 96)%nat
  /\ exists (verts : list Vector4) (img : RGBA null_rasterizer) (offsets : list float32),
       generateAtlas spec_platform null_rasterizer mono_font 12 dpi72
         (F32.of_Z 800) (F32.of_Z 600) = Ok (verts, img, offsets)
       /\ take 4 (drop (4 * 65) verts)
          = [ V4 (F32.of_Z (-1)) (F32.of_Z 1)
                (S754_finite false 14909440 (-25)) (S754_zero false);
              V4 (S754_finite true 16483615 (-24)) (F32.of_Z 1)
                (S754_finite false 15138816 (-25)) (S754_zero false);
              V4 (F32.of_Z (-1)) (S754_finite false 16106127 (-24))
                (S754_finite false 14909440 (-25)) (S754_finite false 12582912 (-24));
              V4 (S754_finite true 16483615 (-24)) (S754_finite false 16106127 (-24))
                (S754_finite false 15138816 (-25)) (S754_finite false 12582912 (-24)) ].
Proof.
  split; [lia|].
  destruct (glyph_quad_coordinates spec_platform null_rasterizer mono_font 12 dpi72
              (F32.of_Z 800) (F32.of_Z 600) 65 ltac:(lia))
    as (verts & img & offsets & Hrun & Hquad & _).
  exists verts, img, offsets. split; [exact Hrun|]. rewrite Hquad. vm_compute. reflexivity.
Defined.

(** C6. For every pair of glyphs [i], [j] of the range and every corner
    [k] in 0..3, the k-th vertex of glyph [i] and the k-th vertex of glyph
    [j] have the same (x, y) components: all quads are the same rectangle in
    clip space, and only the texture coordinates tell them apart. *)
Theorem quad_positions_invariant (P : Platform) (R : Rasterizer) (font : TTFont)
    (scale : Z) (dpi : float64) (width height : float32) (i j k : nat) :
  (i < 96)%nat -> (j < 96)%nat -> (k < 4)%nat ->
  exists (verts : list Vector4) (img : RGBA R) (offsets : list float32) (a b : Vector4),
    generateAtlas P R font scale dpi width height = Ok (verts, img, offsets)
    /\ verts !! (4 * i + k)%nat = Some a
    /\ verts !! (4 * j + k)%nat = Some b
    /\ position a = position b.
Proof.
  intros Hi Hj Hk.
  destruct (generateAtlas_spec P R font scale dpi width height) as (img & Hrun & _).
  exists (atlas_verts P font scale width height), img, (atlas_offsets font scale width).
  unfold atlas_verts.
  rewrite !lookup_flat_map_blocks by (reflexivity || assumption).
  destruct k as [|[|[|[|k]]]]; [| | | |lia];
    (do 2 eexists; split; [exact Hrun|]; split; [reflexivity|]; split; reflexivity).
Qed.

Lemma quad_positions_invariant_witness :
  (0 < 96)%nat /\ (95 < 96)%nat /\ (3 < 4)%nat
  /\ exists (verts : list Vector4) (img : RGBA recording_rasterizer)
       (offsets : list float32) (a b : Vector4),
       generateAtlas spec_platform recording_rasterizer mono_font 12 dpi72
         (F32.of_Z 800) (F32.of_Z 600) = Ok (verts, img, offsets)
       /\ verts !! (4 * 0 + 3)%nat = Some a
       /\ verts !! (4 * 95 + 3)%nat = Some b
       /\ position a = position b.
Proof.
  split; [lia|]. split; [lia|]. split; [lia|].
  apply (quad_positions_invariant spec_platform recording_rasterizer mono_font 12 dpi72
           (F32.of_Z 800) (F32.of_Z 600) 0 95 3); lia.
Defined.

(** C7. [generateAtlas] is deterministic: two runs on the same font, scale,
    dpi and viewport return the same vertex sequence and the same advance
    table, whatever the rasterizer does with its context and its image in
    either run.  (The dpi does not reach the vertices or the table: the two
    runs may even differ in it.) *)
Theorem generateAtlas_deterministic (P : Platform) (R1 R2 : Rasterizer) (font : TTFont)
    (scale : Z) (dpi1 dpi2 : float64) (width height : float32) :
  exists (verts : list Vector4) (offsets : list float32),
    atlas_data (generateAtlas P R1 font scale dpi1 width height) = Some (verts, offsets)
    /\ atlas_data (generateAtlas P R2 font scale dpi2 width height) = Some (verts, offsets).
Proof.
  destruct (generateAtlas_spec P R1 font scale dpi1 width height) as (img1 & Hrun1 & _).
  destruct (generateAtlas_spec P R2 font scale dpi2 width height) as (img2 & Hrun2 & _).
  exists (atlas_verts P font scale width height), (atlas_offsets font scale width).
  rewrite Hrun1, Hrun2. split; reflexivity.
Qed.

(** * Properties of the draw protocol and of teardown *)

Lemma gl_run_app cs1 cs2 g : gl_run (cs1 ++ cs2) g = gl_run cs2 (gl_run cs1 g).
Proof. apply fold_left_app. Qed.

Lemma calls_step call g : gl.calls (gl.step call g) = gl.calls g ++ [call].
Proof.
  destruct call; try reflexivity;
    repeat match goal with
           | e : gl.GLenum |- _ => destruct e; try reflexivity
           end;
    cbn; repeat case_match; reflexivity.
Qed.

Lemma calls_gl_run cs : forall g, gl.calls (gl_run cs g) = gl.calls g ++ cs.
Proof.
  induction cs as [|call cs IH]; intros g; cbn [gl_run fold_left].
  - rewrite app_nil_r. reflexivity.
  - fold (gl_run cs (gl.step call g)). rewrite IH, calls_step, <- app_assoc. reflexivity.
Qed.

Lemma same_context_refl g : same_context g g.
Proof. repeat split. Qed.

Lemma same_context_glyph_draws this x y s :
  forall total g, same_context g (gl_run (glyph_draws this x y s total) g).
Proof.
  induction s as [|ch s IH]; intros total g; cbn [glyph_draws gl_run fold_left].
  - apply same_context_refl.
  - match goal with
    | |- same_context _ (fold_left _ (glyph_draws _ _ _ _ ?t) ?g1) =>
        specialize (IH t g1); unfold gl_run in IH
    end.
    unfold same_context in *. cbn in IH. exact IH.
Qed.

Lemma slice_get_in_range {A} (l : list A) (i : Z) (d : A) :
  0 <= i < Z.of_nat (length l) -> slice_get l i = Ok (nth (Z.to_nat i) l d).
Proof.
  intros Hi. unfold slice_get.
  replace ((0 <=? i) && (i <? Z.of_nat (length l))) with true
    by (symmetry; apply andb_true_iff; split; [apply Z.leb_le | apply Z.ltb_lt]; lia).
  destruct (l !! Z.to_nat i) as [v|] eqn:E.
  - f_equal. symmetry. apply nth_lookup_Some with (d := d) in E. exact E.
  - apply lookup_ge_None in E. lia.
Qed.

Lemma slice_get_out_of_range {A} (l : list A) (i : Z) :
  ~ (0 <= i < Z.of_nat (length l)) -> slice_get l i = Abort (IndexOutOfRange i (length l)).
Proof.
  intros Hi. unfold slice_get.
  replace ((0 <=? i) && (i <? Z.of_nat (length l))) with false; [reflexivity|].
  symmetry. apply andb_false_iff.
  destruct (Z.leb_spec 0 i); [right; apply Z.ltb_ge; lia | left; reflexivity].
Qed.

(** The character loop, when every character has a glyph. *)
Lemma draw_runes_in_range this x y s :
  length (offsets this) = 96%nat ->
  Forall in_glyph_range s ->
  forall total g, exists total',
    draw_runes this x y s total g
    = (Ok total', gl_run (glyph_draws this x y s total) g).
Proof.
  intros Hlen Hs. induction Hs as [|ch s Hch Hs IH]; intros total g.
  - exists total. reflexivity.
  - unfold in_glyph_range in Hch.
    cbn [draw_runes glyph_draws gl_run fold_left].
    rewrite wrap32_small by lia.
    rewrite (slice_get_in_range _ _ F32.zero) by (rewrite Hlen; lia).
    unfold gl_bind at 1. unfold gl_lift.
    unfold gl_bind at 1. unfold gl_call at 1.
    unfold gl_bind at 1. unfold gl_call at 1.
    apply IH.
Qed.

(** The character loop stops at the first character without a glyph. *)
Lemma draw_runes_out_of_range this x y s :
  length (offsets this) = 96%nat ->
  Forall is_rune s ->
  Exists (fun ch => ~ in_glyph_range ch) s ->
  forall total g, exists (i : Z) (g' : gl.State),
    draw_runes this x y s total g = (Abort (IndexOutOfRange i 96), g')
    /\ (i < 0 \/ 96 <= i).
Proof.
  intros Hlen Hrune Hex. induction Hex as [ch s Hch|ch s Hex IH]; intros total g.
  - apply Forall_cons in Hrune as [Hr _]. unfold is_rune in Hr. unfold in_glyph_range in Hch.
    exists (ch - 32), g. cbn [draw_runes].
    rewrite wrap32_small by lia.
    rewrite slice_get_out_of_range by (rewrite Hlen; lia).
    rewrite Hlen. split; [reflexivity | lia].
  - apply Forall_cons in Hrune as [Hr Hrune]. unfold is_rune in Hr.
    cbn [draw_runes]. rewrite wrap32_small by lia.
    destruct (Z_lt_le_dec (ch - 32) 0) as [Hneg|Hpos];
      [|destruct (Z_lt_le_dec (ch - 32) 96) as [Hin|Hbig]].
    + exists (ch - 32), g. rewrite slice_get_out_of_range by (rewrite Hlen; lia).
      rewrite Hlen. split; [reflexivity | lia].
    + rewrite (slice_get_in_range _ _ F32.zero) by (rewrite Hlen; lia).
      unfold gl_bind at 1. unfold gl_lift.
      unfold gl_bind at 1. unfold gl_call at 1.
      unfold gl_bind at 1. unfold gl_call at 1.
      apply IH. exact Hrune.
    + exists (ch - 32), g. rewrite slice_get_out_of_range by (rewrite Hlen; lia).
      rewrite Hlen. split; [reflexivity | lia].
Qed.

Lemma gl_bind_call {B} call (k : unit -> GL B) g :
  gl_bind (gl_call call) k g = k tt (gl.step call g).
Proof. reflexivity. Qed.

(** [Printf] on a string whose characters all have a glyph: it returns,
    and the context has received the prologue, the calls of the character
    loop and the epilogue, in this order. *)
Lemma Printf_in_range this x y s g :
  length (offsets this) = 96%nat ->
  Forall in_glyph_range s ->
  Printf this x y s g
  = (Ok tt, gl_run (Printf_prologue this ++ glyph_draws this x y s F32.zero
                    ++ Printf_epilogue) g).
Proof.
  intros Hlen Hs. unfold Printf. rewrite !gl_bind_call.
  match goal with
  | |- context [draw_runes this x y s F32.zero] =>
      match goal with
      | |- gl_bind _ _ ?g1 = _ =>
          destruct (draw_runes_in_range this x y s Hlen Hs F32.zero g1) as [total' Hrun]
      end
  end.
  unfold gl_bind at 1. rewrite Hrun. rewrite !gl_bind_call.
  rewrite !gl_run_app. reflexivity.
Qed.

(** [Printf] on a string with a character outside 32..127: it panics on
    the table lookup. *)
Lemma Printf_out_of_range this x y s g :
  length (offsets this) = 96%nat ->
  Forall is_rune s ->
  Exists (fun ch => ~ in_glyph_range ch) s ->
  exists (i : Z) (g' : gl.State),
    Printf this x y s g = (Abort (IndexOutOfRange i 96), g') /\ (i < 0 \/ 96 <= i).
Proof.
  intros Hlen Hrune Hex. unfold Printf. rewrite !gl_bind_call.
  match goal with
  | |- exists _ _, gl_bind _ _ ?g1 = _ /\ _ =>
      destruct (draw_runes_out_of_range this x y s Hlen Hrune Hex F32.zero g1)
        as (i & g' & Hrun & Hi)
  end.
  exists i, g'. unfold gl_bind at 1. rewrite Hrun. auto.
Qed.

(** ** Claims about the draw protocol *)

(** C2. For each character of the formatted string, in order, [Printf]
    takes index = character code - 32, sets the offset uniform to
    (x + runningOffset, y), issues one triangle strip of exactly 4 vertices
    starting at vertex index * 4, and adds entry [index] of the advance
    table to the running offset.  So for the string AAA with an advance of
    0.1 for the glyph of A, the three draws are made at x + 0.0, x + 0.1 and
    x + 0.2. *)
Theorem Printf_draws (this : Font) (x y : float32) (s : list Z) (g : gl.State) :
  length (offsets this) = 96%nat ->
  Forall in_glyph_range s ->
  (exists g' : gl.State,
     Printf this x y s g = (Ok tt, g')
     /\ gl.calls g'
        = gl.calls g ++ Printf_prologue this
          ++ glyph_draws this x y s F32.zero ++ Printf_epilogue)
  /\ (offsets this !! 33%nat = Some tenth ->
      exists g' : gl.State,
        Printf this x y [65; 65; 65] g = (Ok tt, g')
        /\ gl.calls g'
           = gl.calls g ++ Printf_prologue this
             ++ [ gl.Uniform2f (offsetUniform this) (x + F32.zero)%f32 y;
                  gl.DrawArrays gl.TRIANGLE_STRIP 132 4;
                  gl.Uniform2f (offsetUniform this) (x + tenth)%f32 y;
                  gl.DrawArrays gl.TRIANGLE_STRIP 132 4;
                  gl.Uniform2f (offsetUniform this) (x + fifth)%f32 y;
                  gl.DrawArrays gl.TRIANGLE_STRIP 132 4 ]
             ++ Printf_epilogue).
Proof.
  intros Hlen Hs. split.
  - eexists. split; [apply Printf_in_range; assumption|].
    rewrite calls_gl_run. reflexivity.
  - intros HA. eexists. split.
    + apply Printf_in_range; [assumption|].
      repeat constructor; unfold in_glyph_range; lia.
    + rewrite calls_gl_run. cbn [glyph_draws].
      change (Z.to_nat (65 - 32)) with 33%nat.
      rewrite (nth_lookup_Some _ _ F32.zero _ HA).
      reflexivity.
Qed.

Lemma Printf_draws_witness :
  length (offsets demo_Font) = 96%nat
  /\ Forall in_glyph_range [72; 105]
  /\ (exists g' : gl.State,
        Printf demo_Font F32.one F32.two [72; 105] gl.initial = (Ok tt, g')
        /\ gl.calls g'
           = gl.calls gl.initial ++ Printf_prologue demo_Font
             ++ glyph_draws demo_Font F32.one F32.two [72; 105] F32.zero
             ++ Printf_epilogue)
  /\ offsets demo_Font !! 33%nat = Some tenth
  /\ (exists g' : gl.State,
        Printf demo_Font F32.one F32.two [65; 65; 65] gl.initial = (Ok tt, g')
        /\ gl.calls g'
           = gl.calls gl.initial ++ Printf_prologue demo_Font
             ++ [ gl.Uniform2f (offsetUniform demo_Font) (F32.one + F32.zero)%f32 F32.two;
                  gl.DrawArrays gl.TRIANGLE_STRIP 132 4;
                  gl.Uniform2f (offsetUniform demo_Font) (F32.one + tenth)%f32 F32.two;
                  gl.DrawArrays gl.TRIANGLE_STRIP 132 4;
                  gl.Uniform2f (offsetUniform demo_Font) (F32.one + fifth)%f32 F32.two;
                  gl.DrawArrays gl.TRIANGLE_STRIP 132 4 ]
             ++ Printf_epilogue).
Proof.
  assert (Hlen : length (offsets demo_Font) = 96%nat) by reflexivity.
  assert (Hs : Forall in_glyph_range [72; 105])
    by (repeat constructor; unfold in_glyph_range; lia).
  assert (HA : offsets demo_Font !! 33%nat = Some tenth) by reflexivity.
  destruct (Printf_draws demo_Font F32.one F32.two [72; 105] gl.initial Hlen Hs)
    as [H1 H2].
  split; [exact Hlen|]. split; [exact Hs|]. split; [exact H1|].
  split; [exact HA|]. exact (H2 HA).
Defined.

Lemma in_glyph_range_dec (ch : Z) : {in_glyph_range ch} + {~ in_glyph_range ch}.
Proof.
  unfold in_glyph_range.
  destruct (Z_le_dec 32 ch); [destruct (Z_le_dec ch 127)|]; [left | right | right]; lia.
Defined.

(** C10. With the 96-entry table that [NewFont] builds, a formatted string
    containing a character below 32 or above 127 makes the table lookup an
    out-of-range slice access, a run-time panic: there is no guard, and
    [Printf] returns normally exactly when every character lies in
    32..127. *)
Theorem Printf_panics_outside_glyph_range (this : Font) (x y : float32) (s : list Z)
    (g : gl.State) :
  length (offsets this) = 96%nat ->
  Forall is_rune s ->
  (Exists (fun ch => ch < 32 \/ 127 < ch) s ->
   exists (i : Z) (g' : gl.State),
     Printf this x y s g = (Abort (IndexOutOfRange i 96), g') /\ (i < 0 \/ 96 <= i))
  /\ (fst (Printf this x y s g) = Ok tt <-> Forall in_glyph_range s).
Proof.
  intros Hlen Hrune.
  assert (Hbad : Exists (fun ch => ~ in_glyph_range ch) s ->
                 exists (i : Z) (g' : gl.State),
                   Printf this x y s g = (Abort (IndexOutOfRange i 96), g')
                   /\ (i < 0 \/ 96 <= i))
    by (apply Printf_out_of_range; assumption).
  split.
  - intros Hex. apply Hbad. apply Exists_exists in Hex as (ch & Hin & Hch).
    apply Exists_exists. exists ch. split; [exact Hin|]. unfold in_glyph_range. lia.
  - split.
    + intros Hok. destruct (Forall_Exists_dec in_glyph_range (fun ch => ~ in_glyph_range ch)
                     in_glyph_range_dec s) as [H|H];
        [exact H|].
      destruct (Hbad H) as (i & g' & Hrun & _). rewrite Hrun in Hok. discriminate.
    + intros Hs. rewrite Printf_in_range by assumption. reflexivity.
Qed.

Lemma Printf_panics_outside_glyph_range_witness :
  length (offsets demo_Font) = 96%nat
  /\ Forall is_rune [65; 10; 66]
  /\ (Exists (fun ch => ch < 32 \/ 127 < ch) [65; 10; 66] ->
      exists (i : Z) (g' : gl.State),
        Printf demo_Font F32.zero F32.zero [65; 10; 66] gl.initial
        = (Abort (IndexOutOfRange i 96), g') /\ (i < 0 \/ 96 <= i)).
Proof.
  assert (Hlen : length (offsets demo_Font) = 96%nat) by reflexivity.
  assert (Hr : Forall is_rune [65; 10; 66])
    by (repeat constructor; unfold is_rune; lia).
  split; [exact Hlen|]. split; [exact Hr|].
  exact (proj1 (Printf_panics_outside_glyph_range demo_Font F32.zero F32.zero
                  [65; 10; 66] gl.initial Hlen Hr)).
Defined.

(** What [Printf] leaves in the context, whatever it found there. *)
Lemma Printf_final_context this x y s g :
  let g' := gl_run (Printf_prologue this ++ glyph_draws this x y s F32.zero
                    ++ Printf_epilogue) g in
  gl.blend g' = false
  /\ gl.blendFunc g' = (gl.SRC_ALPHA, gl.ONE_MINUS_SRC_ALPHA)
  /\ gl.currentProgram g' = 0
  /\ gl.vertexArrayBinding g' = 0
  /\ gl.arrayBufferBinding g' = gl.arrayBufferBinding g
  /\ gl.textureBinding2D g' = gl.textureBinding2D g
  /\ gl.objects g' = gl.objects g
  /\ gl.nextName g' = gl.nextName g
  /\ gl.messages g' = gl.messages g.
Proof.
  intros g'. subst g'. rewrite !gl_run_app.
  set (g1 := gl_run (Printf_prologue this) g).
  destruct (same_context_glyph_draws this x y s F32.zero g1)
    as (_ & Hf & _ & _ & Hab & Htb & Hob & Hnn & Hms).
  set (g2 := gl_run (glyph_draws this x y s F32.zero) g1) in *.
  cbn [Printf_epilogue gl_run fold_left].
  cbn [gl.step gl.logged gl.set_blend gl.set_currentProgram gl.set_vertexArrayBinding
       gl.blend gl.blendFunc gl.currentProgram gl.vertexArrayBinding
       gl.arrayBufferBinding gl.textureBinding2D gl.objects gl.nextName gl.messages].
  rewrite Hf, Hab, Htb, Hob, Hnn, Hms. subst g1.
  cbn [Printf_prologue gl_run fold_left].
  cbn [gl.step gl.logged gl.set_blend gl.set_blendFunc gl.set_currentProgram
       gl.set_vertexArrayBinding
       gl.blend gl.blendFunc gl.currentProgram gl.vertexArrayBinding
       gl.arrayBufferBinding gl.textureBinding2D gl.objects gl.nextName gl.messages].
  repeat split.
Qed.

(** C8, as the code has it.  When every character has a glyph, [Printf]
    returns; it enables blending and sets the source-over factors before any
    draw, and disabling blending is its last call.  It does not put back
    what it found: afterwards blending is disabled, the blend factors are
    (SRC_ALPHA, ONE_MINUS_SRC_ALPHA), no program is current and no vertex
    array is bound, whatever the context held before; the buffer and texture
    bindings and the objects are untouched.  On the empty string it issues no
    draw and leaves blending disabled, which is the state before the call
    when blending was disabled then. *)
Theorem Printf_blend_bracket (this : Font) (x y : float32) (s : list Z) (g : gl.State) :
  length (offsets this) = 96%nat ->
  Forall in_glyph_range s ->
  (exists g' : gl.State,
     Printf this x y s g = (Ok tt, g')
     /\ gl.calls g'
        = gl.calls g
          ++ [ gl.Enable gl.BLEND;
               gl.BlendFunc gl.SRC_ALPHA gl.ONE_MINUS_SRC_ALPHA;
               gl.UseProgram (program this);
               gl.BindVertexArray (vao this);
               gl.Uniform4fv (colorUniform this) 1 (color this) ]
          ++ glyph_draws this x y s F32.zero
          ++ [ gl.BindVertexArray 0; gl.UseProgram 0; gl.Disable gl.BLEND ]
     /\ gl.blend g' = false
     /\ gl.blendFunc g' = (gl.SRC_ALPHA, gl.ONE_MINUS_SRC_ALPHA)
     /\ gl.currentProgram g' = 0
     /\ gl.vertexArrayBinding g' = 0
     /\ gl.arrayBufferBinding g' = gl.arrayBufferBinding g
     /\ gl.textureBinding2D g' = gl.textureBinding2D g
     /\ gl.objects g' = gl.objects g)
  /\ (exists g' : gl.State,
        Printf this x y [] g = (Ok tt, g')
        /\ filter (fun call => is_draw call) (drop (length (gl.calls g)) (gl.calls g')) = []
        /\ gl.blend g' = false
        /\ (gl.blend g = false -> gl.blend g' = gl.blend g)).
Proof.
  intros Hlen Hs. split.
  - eexists. split; [apply Printf_in_range; assumption|].
    destruct (Printf_final_context this x y s g)
      as (H1 & H2 & H3 & H4 & H5 & H6 & H7 & _).
    split; [rewrite calls_gl_run; reflexivity|]. repeat split; assumption.
  - eexists. split; [apply Printf_in_range; [assumption | constructor]|].
    destruct (Printf_final_context this x y [] g) as (H1 & _).
    split; [|split; [exact H1|]].
    + rewrite calls_gl_run, drop_app_length. reflexivity.
    + intros Hb. rewrite H1, Hb. reflexivity.
Qed.

Lemma Printf_blend_bracket_witness :
  length (offsets demo_Font) = 96%nat
  /\ Forall in_glyph_range [79; 75]
  /\ exists g' : gl.State,
       Printf demo_Font F32.zero F32.zero [79; 75] busy_context = (Ok tt, g')
       /\ gl.blend g' = false
       /\ gl.blendFunc g' = (gl.SRC_ALPHA, gl.ONE_MINUS_SRC_ALPHA)
       /\ gl.currentProgram g' = 0
       /\ gl.vertexArrayBinding g' = 0.
Proof.
  assert (Hlen : length (offsets demo_Font) = 96%nat) by reflexivity.
  assert (Hs : Forall in_glyph_range [79; 75])
    by (repeat constructor; unfold in_glyph_range; lia).
  split; [exact Hlen|]. split; [exact Hs|].
  destruct (Printf_blend_bracket demo_Font F32.zero F32.zero [79; 75] busy_context Hlen Hs)
    as [(g' & Hrun & _ & H1 & H2 & H3 & H4 & _) _].
  exists g'. repeat split; assumption.
Defined.

(** C8 as written fails: in a context where the host has blending enabled,
    program 7 current and vertex array 8 bound, [Printf] of the empty string
    returns with blending disabled, no program current and no vertex array
    bound.  The state is not left as it was found. *)
Lemma Printf_does_not_restore_context :
  exists g' : gl.State,
    Printf demo_Font F32.zero F32.zero [] busy_context = (Ok tt, g')
    /\ (gl.blend busy_context = true /\ gl.blend g' = false)
    /\ (gl.currentProgram busy_context = 7 /\ gl.currentProgram g' = 0)
    /\ (gl.vertexArrayBinding busy_context = 8 /\ gl.vertexArrayBinding g' = 0)
    /\ (gl.blendFunc busy_context = (gl.ONE, gl.ZERO)
        /\ gl.blendFunc g' = (gl.SRC_ALPHA, gl.ONE_MINUS_SRC_ALPHA)).
Proof. eexists. split; [reflexivity|]. repeat split. Qed.

(** * Construction and teardown *)

Lemma gl_bind_gen {B} (mk : Z -> gl.Call) (k : Z -> GL B) g :
  gl_bind (gl_gen mk) k g = k (gl.nextName g) (gl.step (mk (gl.nextName g)) g).
Proof. reflexivity. Qed.

Lemma gl_bind_ret {A B} (a : A) (k : A -> GL B) g : gl_bind (gl_ret a) k g = k a g.
Proof. reflexivity. Qed.

Lemma gl_bind_lift_Ok {A B} (a : A) (k : A -> GL B) g :
  gl_bind (gl_lift (Ok a)) k g = k a g.
Proof. reflexivity. Qed.

Lemma gl_bind_query {A B} call (v : A) (k : A -> GL B) g :
  gl_bind (gl_query call v) k g = k v (gl.step call g).
Proof. reflexivity. Qed.

Lemma gl_bind_print {B} msg (k : unit -> GL B) g :
  gl_bind (log_print msg) k g = k tt (gl.print msg g).
Proof. reflexivity. Qed.

Lemma gl_bind_assoc {A B C} (m : GL A) (k : A -> GL B) (k' : B -> GL C) g :
  gl_bind (gl_bind m k) k' g = gl_bind m (fun a => gl_bind (k a) k') g.
Proof. unfold gl_bind. destruct (m g) as [[a|e] g']; reflexivity. Qed.

Section Construction.

Variable P : Platform.
Variable R : Rasterizer.
Variable D : gl.Driver.
Variable ReadFile : string -> GoResult (list Byte.byte).
Variable ParseFont : list Byte.byte -> GoResult TTFont.

(** The shader objects are created whether or not they compile; the
    handle returned is 0 when compilation fails. *)
Lemma NewShader_spec shaderType source g :
  exists (r : Z * option string) (g' : gl.State),
    NewShader D shaderType source g = (Ok r, g')
    /\ (fst r = 0 \/ fst r = gl.nextName g)
    /\ gl.objects g' = {[ (gl.ShaderObj, gl.nextName g) ]} ∪ gl.objects g
    /\ gl.nextName g' = gl.nextName g + 1
    /\ gl.blend g' = gl.blend g.
Proof.
  unfold NewShader. rewrite gl_bind_gen, !gl_bind_call, gl_bind_query.
  destruct (gl.compile_status D shaderType source =? 0);
    eexists; eexists; (split; [reflexivity|]); cbn; auto.
Qed.


(** The renderer that [NewFont] returns, and what it leaves in the context:
    two shaders, a program, a vertex array, a buffer and a texture, named in
    this order from the context's next free name.  The renderer keeps the
    program, the vertex array and the buffer; its [vs] and [fs] are 0. *)
Lemma NewFont_spec fontPath scale dpi width height b font g :
  ReadFile fontPath = Value b ->
  ParseFont b = Value font ->
  exists (this : Font) (g' : gl.State),
    NewFont P R D ReadFile ParseFont fontPath scale dpi width height g = (Ok this, g')
    /\ vs this = 0 /\ fs this = 0
    /\ program this = gl.nextName g + 2
    /\ vao this = gl.nextName g + 3
    /\ vbo this = gl.nextName g + 4
    /\ offsets this = atlas_offsets font scale width
    /\ color this = [F32.one; F32.one; F32.one; F32.one]
    /\ gl.objects g'
       = {[ (gl.ShaderObj, gl.nextName g); (gl.ShaderObj, gl.nextName g + 1);
            (gl.ProgramObj, gl.nextName g + 2); (gl.VertexArrayObj, gl.nextName g + 3);
            (gl.BufferObj, gl.nextName g + 4); (gl.TextureObj, gl.nextName g + 5) ]}
         ∪ gl.objects g
    /\ gl.nextName g' = gl.nextName g + 6.
Proof.
  intros Hread Hparse.
  destruct (generateAtlas_spec P R font scale dpi width height) as (img & Hatlas & _).
  assert (Hcoords : slice_get (atlas_verts P font scale width height) 0
                    = Ok (nth 0 (atlas_verts P font scale width height)
                            (V4 F32.zero F32.zero F32.zero F32.zero))).
  { apply slice_get_in_range. rewrite length_atlas_verts. lia. }
  unfold NewFont, loadFont. rewrite Hread, Hparse, gl_bind_ret, Hatlas, gl_bind_lift_Ok.
  generalize dependent (atlas_verts P font scale width height). intros coords _ Hcoords.
  generalize (atlas_offsets font scale width). intros offs.
  unfold createProgram, NewShader, NewProgram, report.
  cbv [gl_bind gl_gen gl_call gl_query gl_ret log_print]. cbv beta iota zeta.
  destruct (gl.compile_status D gl.VERTEX_SHADER vertex_shader_source =? 0);
    destruct (gl.compile_status D gl.FRAGMENT_SHADER fragment_shader_source =? 0);
    cbv beta iota zeta;
    match goal with
    | |- context [if ?c then _ else _] => destruct c
    end;
    cbv beta iota zeta; unfold gl_lift; rewrite Hcoords; cbv beta iota zeta.
  all: eexists; eexists; (split; [reflexivity|]).
  all: cbn.
  all: repeat split; try lia.
  all: replace (gl.nextName g + 1 + 1 + 1 + 1 + 1) with (gl.nextName g + 5) by lia;
    replace (gl.nextName g + 1 + 1 + 1 + 1) with (gl.nextName g + 4) by lia;
    replace (gl.nextName g + 1 + 1 + 1) with (gl.nextName g + 3) by lia;
    replace (gl.nextName g + 1 + 1) with (gl.nextName g + 2) by lia.
  all: set_solver.
Qed.

End Construction.

Lemma Delete_spec this g :
  Delete this g
  = (Ok tt, gl_run [ gl.DeleteShader (vs this); gl.DeleteShader (fs this);
                     gl.DeleteProgram (program this); gl.DeleteBuffer (vbo this);
                     gl.DeleteVertexArray (vao this) ] g).
Proof. reflexivity. Qed.

Lemma objects_DeleteShader n g :
  gl.objects (gl.step (gl.DeleteShader n) g) = gl.objects g ∖ {[ (gl.ShaderObj, n) ]}.
Proof. reflexivity. Qed.

Lemma objects_DeleteProgram n g :
  gl.objects (gl.step (gl.DeleteProgram n) g) = gl.objects g ∖ {[ (gl.ProgramObj, n) ]}.
Proof. reflexivity. Qed.

Lemma objects_DeleteBuffer n g :
  gl.objects (gl.step (gl.DeleteBuffer n) g) = gl.objects g ∖ {[ (gl.BufferObj, n) ]}.
Proof. cbn. destruct ((n =? gl.arrayBufferBinding g) && negb (n =? 0)); reflexivity. Qed.

Lemma objects_DeleteVertexArray n g :
  gl.objects (gl.step (gl.DeleteVertexArray n) g)
  = gl.objects g ∖ {[ (gl.VertexArrayObj, n) ]}.
Proof. cbn. destruct ((n =? gl.vertexArrayBinding g) && negb (n =? 0)); reflexivity. Qed.

Lemma objects_after_Delete this g :
  gl.objects (snd (Delete this g))
  = gl.objects g ∖ {[ (gl.ShaderObj, vs this); (gl.ShaderObj, fs this);
                      (gl.ProgramObj, program this); (gl.BufferObj, vbo this);
                      (gl.VertexArrayObj, vao this) ]}.
Proof.
  rewrite Delete_spec. cbn [snd gl_run fold_left].
  rewrite objects_DeleteVertexArray, objects_DeleteBuffer, objects_DeleteProgram,
    !objects_DeleteShader.
  set_solver.
Qed.

(** C9 on the code.  After [NewFont] has built a renderer, [Delete]
    passes shader name 0 twice, then the program, the buffer and the vertex
    array; the two shader objects that [NewFont] created are still in the
    context afterwards, and so is the texture.  The program, the buffer and
    the vertex array are gone. *)
Theorem Delete_leaves_shaders (P : Platform) (R : Rasterizer) (D : gl.Driver)
    (ReadFile : string -> GoResult (list Byte.byte))
    (ParseFont : list Byte.byte -> GoResult TTFont)
    (fontPath : string) (scale : Z) (dpi : float64) (width height : float32)
    (b : list Byte.byte) (font : TTFont) (g : gl.State) :
  ReadFile fontPath = Value b ->
  ParseFont b = Value font ->
  0 < gl.nextName g ->
  exists (this : Font) (g1 g2 : gl.State),
    NewFont P R D ReadFile ParseFont fontPath scale dpi width height g = (Ok this, g1)
    /\ Delete this g1 = (Ok tt, g2)
    /\ drop (length (gl.calls g1)) (gl.calls g2)
       = [ gl.DeleteShader 0; gl.DeleteShader 0; gl.DeleteProgram (program this);
           gl.DeleteBuffer (vbo this); gl.DeleteVertexArray (vao this) ]
    /\ ((gl.ShaderObj, gl.nextName g) ∈ gl.objects g2)
    /\ ((gl.ShaderObj, gl.nextName g + 1) ∈ gl.objects g2)
    /\ ((gl.TextureObj, gl.nextName g + 5) ∈ gl.objects g2)
    /\ ((gl.ProgramObj, program this) ∉ gl.objects g2)
    /\ ((gl.BufferObj, vbo this) ∉ gl.objects g2)
    /\ ((gl.VertexArrayObj, vao this) ∉ gl.objects g2).
Proof.
  intros Hread Hparse Hpos.
  destruct (NewFont_spec P R D ReadFile ParseFont fontPath scale dpi width height
              b font g Hread Hparse)
    as (this & g1 & Hnew & Hvs & Hfs & Hp & Hvao & Hvbo & _ & _ & Hobj & _).
  exists this, g1, (snd (Delete this g1)).
  split; [exact Hnew|]. split; [reflexivity|].
  split.
  { rewrite Delete_spec. cbn [snd]. rewrite calls_gl_run, drop_app_length, Hvs, Hfs.
    reflexivity. }
  rewrite objects_after_Delete, Hobj, Hvs, Hfs, Hp, Hvao, Hvbo.
  repeat split; set_solver by lia.
Qed.

Lemma Delete_leaves_shaders_witness :
  one_file "mono.ttf" = Value []
  /\ parse_mono [] = Value mono_font
  /\ 0 < gl.nextName gl.initial
  /\ exists (this : Font) (g1 g2 : gl.State),
       NewFont spec_platform null_rasterizer good_driver one_file parse_mono
         "mono.ttf" 12 dpi72 (F32.of_Z 800) (F32.of_Z 600) gl.initial = (Ok this, g1)
       /\ Delete this g1 = (Ok tt, g2)
       /\ drop (length (gl.calls g1)) (gl.calls g2)
          = [ gl.DeleteShader 0; gl.DeleteShader 0; gl.DeleteProgram (program this);
              gl.DeleteBuffer (vbo this); gl.DeleteVertexArray (vao this) ]
       /\ ((gl.ShaderObj, 1) ∈ gl.objects g2)
       /\ ((gl.ShaderObj, 1 + 1) ∈ gl.objects g2)
       /\ ((gl.TextureObj, 1 + 5) ∈ gl.objects g2).
Proof.
  split; [reflexivity|]. split; [reflexivity|]. split; [reflexivity|].
  destruct (Delete_leaves_shaders spec_platform null_rasterizer good_driver one_file
              parse_mono "mono.ttf" 12 dpi72 (F32.of_Z 800) (F32.of_Z 600) [] mono_font
              gl.initial eq_refl eq_refl eq_refl)
    as (this & g1 & g2 & H1 & H2 & H3 & H4 & H5 & H6 & _).
  exists this, g1, g2. repeat split; assumption.
Defined.

(** * The advance table *)

Module F32Sign.

Import F32 F32Facts.

Lemma shr_fexp_nonneg m e l :
  0 <= m -> 0 <= shr_m (fst (shr_fexp prec emax m e l)).
Proof.
  intros Hm. unfold shr_fexp.
  destruct (shr_m_shr (shr_record_of_loc m l) e
              (fexp prec emax (Zdigits2 m + e) - e)) as [H _].
  { rewrite shr_m_record_of_loc. exact Hm. }
  rewrite H, shr_m_record_of_loc. apply Z.div_pos; lia.
Qed.

Lemma round_nearest_even_nonneg m l : 0 <= m -> 0 <= round_nearest_even m l.
Proof.
  intros Hm. destruct l as [|[]]; cbn [round_nearest_even]; try lia.
  destruct (Z.even m); lia.
Qed.

(** Rounding a non-negative mantissa never yields a NaN, and the result
    carries the sign given. *)
Lemma binary_round_aux_sign s m e l :
  0 <= m ->
  binary_round_aux prec emax s m e l = S754_zero s
  \/ (exists m' e', binary_round_aux prec emax s m e l = S754_finite s m' e')
  \/ binary_round_aux prec emax s m e l = S754_infinity s.
Proof.
  intros Hm. unfold binary_round_aux.
  pose proof (shr_fexp_nonneg m e l Hm) as H1.
  destruct (shr_fexp prec emax m e l) as [mrs1 e1]. cbn [fst] in H1.
  pose proof (round_nearest_even_nonneg _ (loc_of_shr_record mrs1) H1) as H2.
  pose proof (shr_fexp_nonneg _ e1 loc_Exact H2) as H3.
  destruct (shr_fexp prec emax _ e1 loc_Exact) as [mrs3 e3]. cbn [fst] in H3.
  destruct (shr_m mrs3) as [|m3|m3]; [left; reflexivity | | lia].
  right. destruct (e3 <=? emax - prec); [left; eauto | right; reflexivity].
Qed.

Lemma sign_clear_of_Z z : 0 <= z -> sign_clear (of_Z z) = true.
Proof.
  intros Hz. destruct (of_Z_cases z) as [[_ H]|[[Hnz (m & e & H)]|[Hnz H]]]; rewrite H.
  - reflexivity.
  - replace (z <? 0) with false by (symmetry; apply Z.ltb_ge; lia). reflexivity.
  - replace (z <? 0) with false by (symmetry; apply Z.ltb_ge; lia). reflexivity.
Qed.

(** The product of a number whose sign bit is clear and a positive finite
    number is non-negative. *)
Lemma nonneg_mul x y :
  sign_clear x = true -> positive_finite y = true -> nonneg (mul x y) = true.
Proof.
  intros Hx Hy.
  destruct y as [| | |[] my ey]; try discriminate.
  destruct x as [[]|[]| |[] mx ex]; try discriminate; try reflexivity.
  unfold mul, SFmul. cbn [xorb].
  destruct (binary_round_aux_sign false (Z.pos (mx * my)) (ex + ey) loc_Exact ltac:(lia))
    as [H|[(m' & e' & H)|H]]; rewrite H; reflexivity.
Qed.

End F32Sign.

(** C4, as the code has it.  For every character [ch] of 32..127, entry
    [ch - 32] of the advance table is the font's advance width for [ch] at
    the given scale, converted to binary32 and multiplied by
    sx = 2 / viewportWidth; the table has 96 entries.  Every entry is
    non-negative when sx is a positive finite number and the font's advance
    widths are non-negative. *)
Theorem advance_table_entries (P : Platform) (R : Rasterizer) (font : TTFont)
    (scale : Z) (dpi : float64) (width height : float32) :
  exists (verts : list Vector4) (img : RGBA R) (offsets : list float32),
    generateAtlas P R font scale dpi width height = Ok (verts, img, offsets)
    /\ length offsets = 96%nat
    /\ (forall ch : Z, 32 <= ch <= 127 ->
          offsets !! Z.to_nat (ch - 32)
          = Some (F32.of_Z (AdvanceWidth (font_HMetric font scale (font_Index font ch)))
                  * (F32.two / width))%f32)
    /\ (positive_finite (F32.two / width)%f32 = true ->
        (forall ch : Z, 32 <= ch <= 127 ->
           0 <= AdvanceWidth (font_HMetric font scale (font_Index font ch))) ->
        Forall (fun o => F32.nonneg o = true) offsets).
Proof.
  destruct (generateAtlas_spec P R font scale dpi width height) as (img & Hrun & _).
  exists (atlas_verts P font scale width height), img, (atlas_offsets font scale width).
  split; [exact Hrun|]. split; [reflexivity|].
  assert (Hentry : forall ch : Z, 32 <= ch <= 127 ->
            atlas_offsets font scale width !! Z.to_nat (ch - 32)
            = Some (advance font scale width ch)).
  { intros ch Hch. rewrite lookup_atlas_offsets by lia.
    unfold low. do 2 f_equal. lia. }
  split; [exact Hentry|].
  intros Hsx Hadv. apply Forall_lookup. intros i o Hi.
  assert (Hlt : (i < 96)%nat).
  { apply lookup_lt_Some in Hi. rewrite length_atlas_offsets in Hi. exact Hi. }
  rewrite lookup_atlas_offsets in Hi by exact Hlt.
  injection Hi as <-. unfold advance, clip_sx.
  apply F32Sign.nonneg_mul; [|exact Hsx].
  apply F32Sign.sign_clear_of_Z. apply Hadv. unfold low. lia.
Qed.

Lemma advance_table_entries_witness :
  exists (verts : list Vector4) (img : RGBA null_rasterizer) (offsets : list float32),
    generateAtlas spec_platform null_rasterizer mono_font 12 dpi72
      (F32.of_Z 800) (F32.of_Z 600) = Ok (verts, img, offsets)
    /\ (32 <= 65 <= 127 ->
        offsets !! Z.to_nat (65 - 32)
        = Some (F32.of_Z (AdvanceWidth (font_HMetric mono_font 12 (font_Index mono_font 65)))
                * (F32.two / F32.of_Z 800))%f32)
    /\ positive_finite (F32.two / F32.of_Z 800)%f32 = true
    /\ (forall ch : Z, 32 <= ch <= 127 ->
          0 <= AdvanceWidth (font_HMetric mono_font 12 (font_Index mono_font ch)))
    /\ Forall (fun o => F32.nonneg o = true) offsets.
Proof.
  destruct (advance_table_entries spec_platform null_rasterizer mono_font 12 dpi72
              (F32.of_Z 800) (F32.of_Z 600)) as (verts & img & offsets & H1 & _ & H3 & H4).
  assert (Hsx : positive_finite (F32.two / F32.of_Z 800)%f32 = true) by reflexivity.
  assert (Hadv : forall ch : Z, 32 <= ch <= 127 ->
            0 <= AdvanceWidth (font_HMetric mono_font 12 (font_Index mono_font ch)))
    by (intros ch _; simpl; lia).
  exists verts, img, offsets.
  split; [exact H1|]. split; [intros Hch; exact (H3 65 Hch)|].
  split; [exact Hsx|]. split; [exact Hadv|]. exact (H4 Hsx Hadv).
Defined.

(** C4 as written fails: with a negative viewport width the scale factor
    sx is negative, and so is every advance of a font with positive advance
    widths. *)
Lemma advance_negative_for_negative_width :
  exists (verts : list Vector4) (img : RGBA null_rasterizer) (offsets : list float32),
    generateAtlas spec_platform null_rasterizer mono_font 12 dpi72
      (F32.of_Z (-800)) (F32.of_Z 600) = Ok (verts, img, offsets)
    /\ offsets !! 33%nat = Some (S754_finite true 16106127 (-30))
    /\ F32.nonneg (S754_finite true 16106127 (-30)) = false.
Proof.
  destruct (generateAtlas_spec spec_platform null_rasterizer mono_font 12 dpi72
              (F32.of_Z (-800)) (F32.of_Z 600)) as (img & Hrun & _).
  eexists _, img, _. split; [exact Hrun|]. split; [|reflexivity].
  rewrite lookup_atlas_offsets by lia. vm_compute. reflexivity.
Qed.

(** * The bitmap dimensions *)

Module F32Int.

Import F32 F32Facts.

(** Shifting out zero bits only leaves the location exact. *)
Lemma shr_1_exact m :
  (2 | m) -> 0 <= m ->
  shr_1 {| shr_m := m; shr_r := false; shr_s := false |}
  = {| shr_m := m / 2; shr_r := false; shr_s := false |}.
Proof.
  intros [k Hk] Hm. subst m. rewrite Z.div_mul by lia.
  destruct k as [|k|k]; [reflexivity| |lia].
  replace (Z.pos k * 2) with (Z.pos k~0) by lia. reflexivity.
Qed.

Lemma iter_shr_1_exact (n : nat) :
  forall m, (2 ^ Z.of_nat n | m) -> 0 <= m ->
    Nat.iter n shr_1 {| shr_m := m; shr_r := false; shr_s := false |}
    = {| shr_m := m / 2 ^ Z.of_nat n; shr_r := false; shr_s := false |}.
Proof.
  induction n as [|n IH]; intros m Hdiv Hm.
  - cbn [Nat.iter]. rewrite Z.div_1_r. reflexivity.
  - rewrite Nat.iter_succ_r.
    rewrite Nat2Z.inj_succ, Z.pow_succ_r in * by lia.
    destruct Hdiv as [k Hk].
    rewrite shr_1_exact; [|exists (k * 2 ^ Z.of_nat n); lia|lia].
    rewrite IH.
    + rewrite Z.div_div by lia. reflexivity.
    + exists k. subst m. replace (k * (2 * 2 ^ Z.of_nat n)) with (k * 2 ^ Z.of_nat n * 2) by lia.
      rewrite Z.div_mul by lia. reflexivity.
    + apply Z.div_pos; lia.
Qed.

Lemma iter_xO (d : positive) : forall m, Z.pos (Pos.iter xO m d) = Z.pos m * 2 ^ Z.pos d.
Proof.
  induction d as [|d IH] using Pos.peano_ind; intros m.
  - cbn. lia.
  - rewrite Pos.iter_succ, Pos2Z.inj_succ, Z.pow_succ_r by lia.
    rewrite Pos2Z.inj_xO, IH. lia.
Qed.

End F32Int.

(** The model of [Pow2] taken from the specification meets the contract. *)
Lemma next_pow2_contract : Pow2_contract spec_platform.
Proof.
  intros n Hn. exists (Z.log2_up n). cbn [Pow2 spec_platform]. unfold next_pow2.
  assert (H0 : 0 <= Z.log2_up n) by apply Z.log2_up_nonneg.
  assert (H31 : Z.log2_up n <= 31) by (apply Z.log2_up_le_pow2; lia).
  assert (Hlt : 2 ^ Z.log2_up n < 2 ^ 32) by (apply Z.pow_lt_mono_r; lia).
  rewrite Z.mod_small by (split; [apply Z.pow_nonneg; lia | exact Hlt]).
  split; [exact H0|]. split; [reflexivity|].
  destruct (Z.eq_dec n 1) as [->|Hn1]; [cbn; lia|].
  pose proof (Z.log2_up_spec n ltac:(lia)) as [Hlo Hhi].
  split; [exact Hhi|].
  replace (Z.log2_up n) with (Z.succ (Z.pred (Z.log2_up n))) at 1 by lia.
  rewrite Z.pow_succ_r; [lia|].
  assert (0 < Z.log2_up n) by (apply Z.log2_up_pos; lia). lia.
Qed.

Lemma to_uint32_exact P x n :
  F32.trunc x = Some n -> 0 <= n < 2 ^ 32 -> to_uint32 P x = n.
Proof.
  intros Ht Hn. unfold to_uint32, in_uint32. rewrite Ht.
  replace ((0 <=? n) && (n <? 2 ^ 32)) with true; [reflexivity|].
  symmetry. apply andb_true_iff. split; [apply Z.leb_le | apply Z.ltb_lt]; lia.
Qed.

Lemma image_Rect_origin w h :
  0 <= w -> 0 <= h -> Dx (image_Rect 0 0 w h) = w /\ Dy (image_Rect 0 0 w h) = h.
Proof.
  intros Hw Hh. unfold image_Rect, Dx, Dy.
  replace (w <? 0) with false by (symmetry; apply Z.ltb_ge; lia).
  replace (h <? 0) with false by (symmetry; apply Z.ltb_ge; lia).
  cbn. lia.
Qed.

(** * Whole numbers that [float32] holds exactly *)

Module F32Exact.

Import F32 F32Facts F32Int.

Lemma float32_exact_small z : Z.abs z < 2 ^ 24 -> float32_exact z.
Proof. intros Hz. exists z, 0. split; [lia|]. split; [exact Hz | lia]. Qed.

Lemma float32_exact_pos z :
  0 < z -> float32_exact z -> exists m k, 0 <= k /\ 0 < m < 2 ^ 24 /\ z = m * 2 ^ k.
Proof.
  intros Hz (m & k & Hk & Hm & E). exists m, k. split; [exact Hk|]. split; [|exact E].
  pose proof (Z.pow_pos_nonneg 2 k ltac:(lia) Hk). split; [nia | lia].
Qed.

Lemma divide_3_pow2 j : 0 <= j -> forall m, (3 | m * 2 ^ j) -> (3 | m).
Proof.
  intros Hj. pattern j. apply natlike_ind; [| |exact Hj].
  - intros m H. rewrite Z.pow_0_r, Z.mul_1_r in H. exact H.
  - intros i Hi IH m H. rewrite Z.pow_succ_r in H by lia.
    apply IH. destruct H as [q Hq]. exists (m * 2 ^ i - q). lia.
Qed.

(** If 96 cells have an exact width, one cell has. *)
Lemma float32_exact_cell c : float32_exact (c * 96) -> float32_exact c.
Proof.
  intros (m & k & Hk & Hm & E).
  destruct (Z_lt_le_dec k 5) as [Hlt|Hge].
  - apply float32_exact_small.
    assert (H32 : 2 ^ 5 = 2 ^ k * 2 ^ (5 - k))
      by (rewrite <- Z.pow_add_r by lia; f_equal; lia).
    pose proof (Z.pow_pos_nonneg 2 k ltac:(lia) Hk).
    pose proof (Z.pow_pos_nonneg 2 (5 - k) ltac:(lia) ltac:(lia)).
    change (2 ^ 5) with 32 in H32.
    assert (Hm' : m = c * 3 * 2 ^ (5 - k)) by nia.
    assert (Z.abs m = Z.abs c * 3 * 2 ^ (5 - k)) by (rewrite Hm', !Z.abs_mul; lia).
    nia.
  - assert (H2 : 2 ^ k = 32 * 2 ^ (k - 5)).
    { change 32 with (2 ^ 5). rewrite <- Z.pow_add_r by lia. f_equal. lia. }
    assert (E3 : c * 3 = m * 2 ^ (k - 5)) by nia.
    assert (Hdiv : (3 | m)).
    { apply (divide_3_pow2 (k - 5)); [lia|]. exists c. lia. }
    destruct Hdiv as [m' ->]. exists m', (k - 5). split; [lia|]. split; [lia | nia].
Qed.

(** Shifting out bits that are all zero is exact. *)
Lemma shr_fexp_exact m e z :
  0 < m -> 0 < z -> - 149 <= e -> scaled m e z -> float32_exact z ->
  exists m1 e1,
    shr_fexp prec emax m e loc_Exact
    = ({| shr_m := m1; shr_r := false; shr_s := false |}, e1)
    /\ 0 < m1 /\ e <= e1 /\ scaled m1 e1 z.
Proof.
  intros Hm Hz He Hsc Hex. unfold shr_fexp. cbn [shr_record_of_loc].
  destruct (fexp prec emax (Zdigits2 m + e) - e) as [|p|p] eqn:En; cbn [shr].
  - exists m, e. repeat split; [assumption | lia | assumption].
  - destruct m as [|pm|pm]; try lia. cbn [Zdigits2] in En.
    pose proof (digits2_pos_bounds pm) as [Hlo _].
    assert (Hp : Z.pos p = Z.pos (digits2_pos pm) - 24).
    { revert En. unfold fexp, SpecFloat.emin, prec, emax. lia. }
    destruct (float32_exact_pos z Hz Hex) as (m0 & k0 & Hk0 & Hm0 & E0).
    unfold scaled in Hsc.
    set (A := e + 149) in *. set (B := k0 + 149).
    assert (HA : 0 <= A) by (unfold A; lia).
    assert (HmB : Z.pos pm * 2 ^ A = m0 * 2 ^ B).
    { rewrite Hsc, E0. unfold B. rewrite Z.pow_add_r by lia. lia. }
    assert (HAB : A + Z.pos p <= B).
    { destruct (Z_le_gt_dec (A + Z.pos p) B) as [H|H]; [exact H|exfalso].
      assert (H1 : 2 ^ B <= 2 ^ (A + Z.pos p - 1)) by (apply Z.pow_le_mono_r; lia).
      assert (H2 : 2 ^ 24 * 2 ^ (A + Z.pos p - 1) = 2 ^ A * 2 ^ (Z.pos (digits2_pos pm) - 1)).
      { rewrite <- !Z.pow_add_r by lia. f_equal. lia. }
      assert (H3 : 2 * 2 ^ (Z.pos (digits2_pos pm) - 1) = 2 ^ Z.pos (digits2_pos pm)).
      { rewrite <- Z.pow_succ_r by lia. f_equal. lia. }
      pose proof (Z.pow_pos_nonneg 2 A ltac:(lia) HA).
      pose proof (Z.pow_pos_nonneg 2 B ltac:(lia) ltac:(unfold B; lia)).
      pose proof (Z.pow_pos_nonneg 2 (A + Z.pos p - 1) ltac:(lia) ltac:(lia)).
      nia. }
    assert (HB : 2 ^ B = 2 ^ (B - A - Z.pos p) * 2 ^ Z.pos p * 2 ^ A).
    { rewrite <- !Z.pow_add_r by lia. f_equal. lia. }
    pose proof (Z.pow_pos_nonneg 2 A ltac:(lia) HA) as HA2.
    assert (Em : Z.pos pm = m0 * 2 ^ (B - A - Z.pos p) * 2 ^ Z.pos p) by nia.
    exists (m0 * 2 ^ (B - A - Z.pos p)), (e + Z.pos p).
    rewrite iter_pos_nat, iter_shr_1_exact;
      [| rewrite positive_nat_Z; exists (m0 * 2 ^ (B - A - Z.pos p)); exact Em | lia].
    rewrite positive_nat_Z, Em, Z.div_mul by (apply Z.pow_nonzero; lia).
    split; [reflexivity|].
    pose proof (Z.pow_pos_nonneg 2 (B - A - Z.pos p) ltac:(lia) ltac:(lia)).
    split; [nia|]. split; [lia|].
    unfold scaled. fold A.
    replace (e + Z.pos p + 149) with (Z.pos p + A) by (unfold A; lia).
    rewrite Z.pow_add_r by lia. rewrite Hsc in HmB. nia.
  - exists m, e. repeat split; [assumption | lia | assumption].
Qed.

(** Rounding a number that [float32] holds exactly leaves it as it is. *)
Lemma binary_round_aux_exact s m e z :
  0 < m -> 0 < z < 2 ^ 100 -> - 149 <= e -> scaled m e z -> float32_exact z ->
  exists m' e',
    binary_round_aux prec emax s m e loc_Exact = S754_finite s m' e'
    /\ e <= e' /\ scaled (Z.pos m') e' z.
Proof.
  intros Hm Hz He Hsc Hex. unfold binary_round_aux.
  destruct (shr_fexp_exact m e z Hm ltac:(lia) He Hsc Hex) as (m1 & e1 & -> & Hm1 & He1 & Hsc1).
  cbn [shr_m loc_of_shr_record round_nearest_even].
  destruct (shr_fexp_exact m1 e1 z Hm1 ltac:(lia) ltac:(lia) Hsc1 Hex)
    as (m2 & e2 & -> & Hm2 & He2 & Hsc2).
  cbn [shr_m]. destruct m2 as [|p2|p2]; try lia.
  assert (He2' : e2 <= 104).
  { unfold scaled in Hsc2.
    destruct (Z_le_gt_dec e2 104) as [H|H]; [exact H|exfalso].
    assert (2 ^ 249 <= 2 ^ (e2 + 149)) by (apply Z.pow_le_mono_r; lia).
    assert (z * 2 ^ 149 < 2 ^ 100 * 2 ^ 149) by lia.
    change (2 ^ 100 * 2 ^ 149) with (2 ^ 249) in *. nia. }
  replace (e2 <=? emax - prec) with true
    by (symmetry; apply Z.leb_le; unfold emax, prec; lia).
  exists p2, e2. split; [reflexivity|]. split; [lia | exact Hsc2].
Qed.

(** [float32(z)] is [z] when [float32] holds [z] exactly. *)
Lemma of_Z_exact z :
  0 < z < 2 ^ 100 -> float32_exact z ->
  exists m e, of_Z z = S754_finite false m e /\ - 23 <= e /\ scaled (Z.pos m) e z.
Proof.
  intros Hz Hex. destruct z as [|p|p]; try lia.
  unfold of_Z. cbn [binary_normalize]. unfold binary_round.
  pose proof (shl_align_exp p 0 (fexp prec emax (Z.pos (digits2_pos p) + 0))) as Hexp.
  assert (Hsc : scaled (Z.pos (fst (shl_align p 0 (fexp prec emax (Z.pos (digits2_pos p) + 0)))))
                  (snd (shl_align p 0 (fexp prec emax (Z.pos (digits2_pos p) + 0))))
                  (Z.pos p)).
  { unfold shl_align in *.
    destruct (fexp prec emax (Z.pos (digits2_pos p) + 0) - 0) as [|d|d] eqn:Ed;
      cbn [fst snd] in *; try reflexivity.
    unfold scaled. rewrite iter_xO.
    assert (Hf : fexp prec emax (Z.pos (digits2_pos p) + 0) = - Z.pos d) by lia.
    rewrite Hf in *.
    assert (Hd : Z.pos d <= 23).
    { revert Hf. unfold fexp, SpecFloat.emin, prec, emax.
      pose proof (Pos2Z.is_pos (digits2_pos p)). lia. }
    replace (2 ^ 149) with (2 ^ Z.pos d * 2 ^ (- Z.pos d + 149))
      by (rewrite <- Z.pow_add_r by lia; f_equal; lia).
    lia. }
  assert (Hlo : - 23 <= snd (shl_align p 0 (fexp prec emax (Z.pos (digits2_pos p) + 0)))).
  { revert Hexp. generalize (snd (shl_align p 0 (fexp prec emax (Z.pos (digits2_pos p) + 0)))).
    unfold fexp, SpecFloat.emin, prec, emax.
    pose proof (Pos2Z.is_pos (digits2_pos p)). lia. }
  destruct (shl_align p 0 _) as [mz ez]. cbn [fst snd] in *.
  destruct (binary_round_aux_exact false (Z.pos mz) ez (Z.pos p) ltac:(lia) Hz ltac:(lia)
              Hsc Hex) as (m' & e' & Hr & He' & Hsc').
  exists m', e'. split; [exact Hr|]. split; [lia | exact Hsc'].
Qed.

(** The product of two numbers is exact when [float32] holds it. *)
Lemma mul_exact mx ex my ey a b :
  - 23 <= ex -> - 23 <= ey -> scaled (Z.pos mx) ex a -> scaled (Z.pos my) ey b ->
  0 < a -> 0 < b -> a * b < 2 ^ 100 -> float32_exact (a * b) ->
  exists m e,
    mul (S754_finite false mx ex) (S754_finite false my ey) = S754_finite false m e
    /\ - 46 <= e /\ scaled (Z.pos m) e (a * b).
Proof.
  intros Hex Hey Hsa Hsb Ha Hb Hab Hexact. unfold mul, SFmul. cbn [xorb].
  assert (Hsc : scaled (Z.pos (mx * my)) (ex + ey) (a * b)).
  { unfold scaled in *. rewrite Pos2Z.inj_mul.
    assert (E1 : 2 ^ (ex + 149) * 2 ^ (ey + 149) = 2 ^ (ex + ey + 149) * 2 ^ 149).
    { rewrite <- !Z.pow_add_r by lia. f_equal. lia. }
    assert (H149 : 0 < 2 ^ 149) by (apply Z.pow_pos_nonneg; lia).
    apply (Z.mul_cancel_r _ _ (2 ^ 149)); [lia|].
    transitivity (Z.pos mx * 2 ^ (ex + 149) * (Z.pos my * 2 ^ (ey + 149))); [|rewrite Hsa, Hsb; ring].
    rewrite <- Z.mul_assoc, <- E1. ring. }
  destruct (binary_round_aux_exact false (Z.pos (mx * my)) (ex + ey) (a * b) ltac:(lia)
              ltac:(nia) ltac:(lia) Hsc Hexact) as (m & e & Hr & He & Hsm).
  exists m, e. split; [exact Hr|]. split; [lia | exact Hsm].
Qed.

(** The integer part of a float that stands for a whole number. *)
Lemma trunc_scaled m e z :
  - 149 <= e -> scaled (Z.pos m) e z -> trunc (S754_finite false m e) = Some z.
Proof.
  intros He Hsc. unfold scaled in Hsc. cbn [trunc]. f_equal.
  assert (H149 : 0 < 2 ^ 149) by (apply Z.pow_pos_nonneg; lia).
  destruct (Z.leb_spec 0 e) as [Hpos|Hneg].
  - rewrite Z.shiftl_mul_pow2 by lia. rewrite Z.pow_add_r in Hsc by lia. nia.
  - rewrite Z.shiftr_div_pow2 by lia.
    assert (E : 2 ^ 149 = 2 ^ (- e) * 2 ^ (e + 149))
      by (rewrite <- Z.pow_add_r by lia; f_equal; lia).
    assert (0 < 2 ^ (e + 149)) by (apply Z.pow_pos_nonneg; lia).
    assert (Em : Z.pos m = z * 2 ^ (- e)) by nia.
    rewrite Em, Z.div_mul; [reflexivity|]. apply Z.pow_nonzero; lia.
Qed.

End F32Exact.

(** The builder's [float32] computation of the required dimensions is
    exact whenever [float32] holds them. *)
Lemma computed_width_exact font scale :
  1 <= required_width font scale < 2 ^ 100 ->
  float32_exact (required_width font scale) ->
  F32.trunc (computed_width font scale) = Some (required_width font scale).
Proof.
  unfold required_width, computed_width, gw_px. fold (cell_width_px font scale).
  rewrite glyphCount_96. intros Hr Hex.
  assert (Hc : 0 < cell_width_px font scale < 2 ^ 100) by lia.
  destruct (F32Exact.of_Z_exact _ Hc (F32Exact.float32_exact_cell _ Hex))
    as (mx & ex & -> & Hex' & Hsx).
  destruct (F32Exact.of_Z_exact 96 ltac:(lia) (F32Exact.float32_exact_small 96 ltac:(lia)))
    as (my & ey & -> & Hey' & Hsy).
  destruct (F32Exact.mul_exact mx ex my ey (cell_width_px font scale) 96 Hex' Hey' Hsx Hsy
              ltac:(lia) ltac:(lia) ltac:(lia) Hex) as (m & e & Hm & He & Hs).
  unfold F32.mul in Hm. unfold F32.mul. rewrite Hm.
  apply F32Exact.trunc_scaled; [lia | exact Hs].
Qed.

Lemma computed_height_exact font scale :
  1 <= required_height font scale < 2 ^ 100 ->
  float32_exact (required_height font scale) ->
  F32.trunc (computed_height font scale) = Some (required_height font scale).
Proof.
  unfold required_height, computed_height, gh_px. fold (cell_height_px font scale).
  intros Hr Hex.
  destruct (F32Exact.of_Z_exact (cell_height_px font scale) ltac:(lia) Hex)
    as (m & e & -> & He & Hs).
  apply F32Exact.trunc_scaled; [lia | exact Hs].
Qed.

(** C5, as the code has it.  When [Pow2] meets its contract and each
    required dimension (gw_px * glyphCount and gh_px, in whole pixels) lies
    between 1 and 2 ^ 31 and is a number that [float32] holds exactly, the
    width and the height of the atlas bitmap are powers of two, each at
    least the required dimension and less than twice it. *)
Theorem bitmap_power_of_two (P : Platform) (R : Rasterizer) (font : TTFont)
    (scale : Z) (dpi : float64) (width height : float32) :
  Pow2_contract P ->
  1 <= required_width font scale <= 2 ^ 31 ->
  float32_exact (required_width font scale) ->
  1 <= required_height font scale <= 2 ^ 31 ->
  float32_exact (required_height font scale) ->
  exists (verts : list Vector4) (img : RGBA R) (offsets : list float32),
    generateAtlas P R font scale dpi width height = Ok (verts, img, offsets)
    /\ exists kw kh : Z,
         0 <= kw /\ 0 <= kh
         /\ Dx (Rect img) = 2 ^ kw /\ Dy (Rect img) = 2 ^ kh
         /\ required_width font scale <= Dx (Rect img) < 2 * required_width font scale
         /\ required_height font scale <= Dy (Rect img) < 2 * required_height font scale.
Proof.
  intros HP Hrw Hew Hrh Heh.
  destruct (generateAtlas_spec P R font scale dpi width height) as (img & Hrun & Hrect).
  exists (atlas_verts P font scale width height), img, (atlas_offsets font scale width).
  split; [exact Hrun|].
  pose proof (computed_width_exact font scale ltac:(lia) Hew) as Hw.
  pose proof (computed_height_exact font scale ltac:(lia) Heh) as Hh.
  destruct (HP _ Hrw) as (kw & Hkw & Epw & Hlw).
  destruct (HP _ Hrh) as (kh & Hkh & Eph & Hlh).
  exists kw, kh. rewrite Hrect. unfold bitmap_bounds.
  rewrite (to_uint32_exact P _ _ Hw) by lia.
  rewrite (to_uint32_exact P _ _ Hh) by lia.
  rewrite Epw, Eph.
  destruct (image_Rect_origin (2 ^ kw) (2 ^ kh)) as [Hx Hy]; [lia | lia |].
  rewrite Hx, Hy. repeat split; try lia.
Qed.

Lemma bitmap_power_of_two_witness :
  Pow2_contract spec_platform
  /\ 1 <= required_width mono_font 12 <= 2 ^ 31
  /\ float32_exact (required_width mono_font 12)
  /\ 1 <= required_height mono_font 12 <= 2 ^ 31
  /\ float32_exact (required_height mono_font 12)
  /\ exists (verts : list Vector4) (img : RGBA null_rasterizer) (offsets : list float32),
       generateAtlas spec_platform null_rasterizer mono_font 12 dpi72
         (F32.of_Z 800) (F32.of_Z 600) = Ok (verts, img, offsets)
       /\ exists kw kh : Z,
            0 <= kw /\ 0 <= kh
            /\ Dx (Rect img) = 2 ^ kw /\ Dy (Rect img) = 2 ^ kh
            /\ 672 <= Dx (Rect img) < 2 * 672
            /\ 12 <= Dy (Rect img) < 2 * 12.
Proof.
  assert (Hw : 1 <= required_width mono_font 12 <= 2 ^ 31) by (vm_compute; split; discriminate).
  assert (Hh : 1 <= required_height mono_font 12 <= 2 ^ 31) by (vm_compute; split; discriminate).
  assert (Hew : float32_exact (required_width mono_font 12))
    by (exists 672, 0; split; [lia|]; split; reflexivity).
  assert (Heh : float32_exact (required_height mono_font 12))
    by (exists 12, 0; split; [lia|]; split; reflexivity).
  split; [exact next_pow2_contract|].
  split; [exact Hw|]. split; [exact Hew|]. split; [exact Hh|]. split; [exact Heh|].
  destruct (bitmap_power_of_two spec_platform null_rasterizer mono_font 12 dpi72
              (F32.of_Z 800) (F32.of_Z 600) next_pow2_contract Hw Hew Hh Heh)
    as (verts & img & offsets & Hrun & Hk).
  exists verts, img, offsets. split; [exact Hrun | exact Hk].
Defined.

(** C5 as written fails in two ways, both for a font 12 pixels high.  For
    a cell 22369624 pixels wide the required width is 2147483904, above
    2 ^ 31: no power of two that large fits in a [uint32], and the bitmap
    comes out 0 pixels wide.  For a cell 11184811 pixels wide the required
    width is 1073741856 = 2 ^ 30 + 32, which [float32] does not hold: the
    builder's product is rounded to 2 ^ 30, and the bitmap, 2 ^ 30 wide, is
    narrower than the 96 cells. *)
Lemma bitmap_narrower_than_required :
  (exists (verts : list Vector4) (img : RGBA null_rasterizer) (offsets : list float32),
     generateAtlas spec_platform null_rasterizer wide_font 12 dpi72
       (F32.of_Z 800) (F32.of_Z 600) = Ok (verts, img, offsets)
     /\ required_width wide_font 12 = 2147483904
     /\ Dx (Rect img) = 0
     /\ ~ (required_width wide_font 12 <= Dx (Rect img))
     /\ ~ (exists k : Z, 0 <= k /\ Dx (Rect img) = 2 ^ k))
  /\ (exists (verts : list Vector4) (img : RGBA null_rasterizer) (offsets : list float32),
        generateAtlas spec_platform null_rasterizer odd_font 12 dpi72
          (F32.of_Z 800) (F32.of_Z 600) = Ok (verts, img, offsets)
        /\ required_width odd_font 12 = 1073741856
        /\ 1 <= required_width odd_font 12 <= 2 ^ 31
        /\ ~ float32_exact (required_width odd_font 12)
        /\ Dx (Rect img) = 2 ^ 30
        /\ ~ (required_width odd_font 12 <= Dx (Rect img))).
Proof.
  split.
  - destruct (generateAtlas_spec spec_platform null_rasterizer wide_font 12 dpi72
                (F32.of_Z 800) (F32.of_Z 600)) as (img & Hrun & Hrect).
    eexists _, img, _. split; [exact Hrun|].
    assert (Hdx : Dx (Rect img) = 0) by (rewrite Hrect; vm_compute; reflexivity).
    assert (Hreq : required_width wide_font 12 = 2147483904) by reflexivity.
    rewrite Hdx, Hreq. split; [reflexivity|]. split; [reflexivity|]. split; [lia|].
    intros (k & Hk & E). pose proof (Z.pow_pos_nonneg 2 k ltac:(lia) Hk). lia.
  - destruct (generateAtlas_spec spec_platform null_rasterizer odd_font 12 dpi72
                (F32.of_Z 800) (F32.of_Z 600)) as (img & Hrun & Hrect).
    eexists _, img, _. split; [exact Hrun|].
    assert (Hdx : Dx (Rect img) = 2 ^ 30) by (rewrite Hrect; vm_compute; reflexivity).
    assert (Hreq : required_width odd_font 12 = 1073741856) by reflexivity.
    rewrite Hdx, Hreq. split; [reflexivity|]. split; [lia|].
    split; [|split; [reflexivity | lia]].
    intros (m & k & Hk & Hm & E).
    destruct (Z_lt_le_dec k 7) as [Hlt|Hge].
    + assert (2 ^ k <= 2 ^ 6) by (apply Z.pow_le_mono_r; lia).
      pose proof (Z.pow_pos_nonneg 2 k ltac:(lia) Hk). change (2 ^ 6) with 64 in *. nia.
    + assert (E7 : 2 ^ k = 128 * 2 ^ (k - 7)).
      { change 128 with (2 ^ 7). rewrite <- Z.pow_add_r by lia. f_equal. lia. }
      rewrite E7 in E. lia.
Qed.

(** * Further properties of construction, drawing and teardown *)

(** X1. When the font file cannot be read, or is read and cannot be
    parsed, [NewFont] writes the error to the log and ends the process
    ([log.Fatal]) before the atlas is built and before any GL call: the log
    has grown by the error, and nothing else in the context has changed. *)
Theorem NewFont_fatal_on_unloadable_font (P : Platform) (R : Rasterizer) (D : gl.Driver)
    (ReadFile : string -> GoResult (list Byte.byte))
    (ParseFont : list Byte.byte -> GoResult TTFont)
    (fontPath : string) (scale : Z) (dpi : float64) (width height : float32)
    (err : string) (g : gl.State) :
  ReadFile fontPath = Err err
  \/ (exists b, ReadFile fontPath = Value b /\ ParseFont b = Err err) ->
  exists g' : gl.State,
    NewFont P R D ReadFile ParseFont fontPath scale dpi width height g = (Abort LogFatal, g')
    /\ g' = gl.print err g
    /\ gl.messages g' = gl.messages g ++ [err]
    /\ gl.calls g' = gl.calls g
    /\ gl.objects g' = gl.objects g.
Proof.
  intros H. exists (gl.print err g).
  split; [|repeat split].
  unfold NewFont, loadFont.
  destruct H as [Hread|(b & Hread & Hparse)]; rewrite Hread; [|rewrite Hparse]; reflexivity.
Qed.

Lemma NewFont_fatal_on_unloadable_font_witness :
  (no_file "mono.ttf" = Err "open mono.ttf: no such file or directory"
   /\ exists g' : gl.State,
        NewFont spec_platform null_rasterizer good_driver no_file parse_mono
          "mono.ttf" 12 dpi72 (F32.of_Z 800) (F32.of_Z 600) busy_context
        = (Abort LogFatal, g')
        /\ gl.messages g' = ["open mono.ttf: no such file or directory"%string]
        /\ gl.calls g' = [])
  /\ ((exists b, one_file "mono.ttf" = Value b
                 /\ parse_nothing b
                    = Err "freetype: invalid TrueType format: TTF data is too short")
      /\ exists g' : gl.State,
           NewFont spec_platform null_rasterizer good_driver one_file parse_nothing
             "mono.ttf" 12 dpi72 (F32.of_Z 800) (F32.of_Z 600) busy_context
           = (Abort LogFatal, g')
           /\ gl.messages g'
              = ["freetype: invalid TrueType format: TTF data is too short"%string]
           /\ gl.calls g' = []).
Proof.
  split.
  - split; [reflexivity|].
    destruct (NewFont_fatal_on_unloadable_font spec_platform null_rasterizer good_driver
                no_file parse_mono "mono.ttf" 12 dpi72 (F32.of_Z 800) (F32.of_Z 600)
                "open mono.ttf: no such file or directory" busy_context
                (or_introl eq_refl)) as (g' & H1 & _ & H2 & H3 & _).
    exists g'. repeat split; assumption.
  - assert (H : exists b, one_file "mono.ttf" = Value b
                          /\ parse_nothing b
                             = Err "freetype: invalid TrueType format: TTF data is too short")
      by (exists []; split; reflexivity).
    split; [exact H|].
    destruct (NewFont_fatal_on_unloadable_font spec_platform null_rasterizer good_driver
                one_file parse_nothing "mono.ttf" 12 dpi72 (F32.of_Z 800) (F32.of_Z 600)
                "freetype: invalid TrueType format: TTF data is too short" busy_context
                (or_intror H)) as (g' & H1 & _ & H2 & H3 & _).
    exists g'. repeat split; assumption.
Defined.

(** X2. [NewShader] creates one shader object, hands it the source,
    compiles it and asks for the compile status; only when the status is 0
    does it read the info log.  On success it returns the object and no
    error.  On failure it returns shader 0 with the info log as the error
    and does not delete the object it created: the object stays in the
    context, and deleting the handle returned does not remove it. *)
Theorem NewShader_result (D : gl.Driver) (shaderType : gl.GLenum) (source : string)
    (g : gl.State) :
  exists g' : gl.State,
    NewShader D shaderType source g
    = (Ok (shader_result D shaderType source (gl.nextName g)), g')
    /\ drop (length (gl.calls g)) (gl.calls g')
       = NewShader_calls D shaderType source (gl.nextName g)
    /\ gl.objects g' = {[ (gl.ShaderObj, gl.nextName g) ]} ∪ gl.objects g
    /\ (gl.compile_status D shaderType source = 0 ->
        shader_result D shaderType source (gl.nextName g)
        = (0, Some (gl.info_log D (gl.nextName g)))
        /\ last (gl.calls g') = Some (gl.GetShaderInfoLog (gl.nextName g))
        /\ (0 < gl.nextName g ->
            (gl.ShaderObj, gl.nextName g)
            ∈ gl.objects (gl.step (gl.DeleteShader
                                     (fst (shader_result D shaderType source (gl.nextName g))))
                            g')))
    /\ (gl.compile_status D shaderType source <> 0 ->
        shader_result D shaderType source (gl.nextName g) = (gl.nextName g, None)
        /\ last (gl.calls g') = Some (gl.GetShaderiv (gl.nextName g) gl.COMPILE_STATUS)).
Proof.
  unfold NewShader, shader_result, NewShader_calls.
  rewrite gl_bind_gen, !gl_bind_call, gl_bind_query.
  destruct (gl.compile_status D shaderType source =? 0) eqn:Ec.
  - rewrite gl_bind_query. eexists. split; [reflexivity|].
    split; [rewrite !calls_step, <- !app_assoc, drop_app_length; reflexivity|].
    split; [reflexivity|]. split.
    + intros _. split; [reflexivity|].
      split; [rewrite calls_step; apply last_snoc|].
      intros Hpos. rewrite objects_DeleteShader. cbn. set_solver by lia.
    + intros Hne. apply Z.eqb_eq in Ec. contradiction.
  - eexists. split; [reflexivity|].
    split; [rewrite !calls_step, <- !app_assoc, drop_app_length; reflexivity|].
    split; [reflexivity|]. split.
    + intros H0. apply Z.eqb_neq in Ec. contradiction.
    + intros _. split; [reflexivity|]. rewrite calls_step. apply last_snoc.
Qed.

Lemma NewShader_result_witness :
  exists g' : gl.State,
    NewShader bad_driver gl.VERTEX_SHADER vertex_shader_source gl.initial
    = (Ok (shader_result bad_driver gl.VERTEX_SHADER vertex_shader_source 1), g')
    /\ gl.objects g' = {[ (gl.ShaderObj, 1) ]} ∪ gl.objects gl.initial
    /\ gl.compile_status bad_driver gl.VERTEX_SHADER vertex_shader_source = 0
    /\ shader_result bad_driver gl.VERTEX_SHADER vertex_shader_source 1
       = (0, Some (gl.info_log bad_driver 1))
    /\ 0 < gl.nextName gl.initial
    /\ ((gl.ShaderObj, 1)
        ∈ gl.objects (gl.step (gl.DeleteShader
                                 (fst (shader_result bad_driver gl.VERTEX_SHADER
                                         vertex_shader_source 1)))
                        g')).
Proof.
  destruct (NewShader_result bad_driver gl.VERTEX_SHADER vertex_shader_source gl.initial)
    as (g' & H1 & _ & H3 & H4 & _).
  destruct (H4 eq_refl) as (H5 & _ & H6).
  exists g'. split; [exact H1|]. split; [exact H3|].
  split; [reflexivity|]. split; [exact H5|]. split; [reflexivity|].
  apply H6. reflexivity.
Defined.

(** X3. [createProgram] never fails.  It runs [NewShader] for the vertex
    shader, then for the fragment shader, then [NewProgram]: the program is
    created, whatever [NewShader] returned is attached to it (shader 0 for a
    shader that did not compile), it is linked and its link status is read.
    A compile failure is logged as a fixed line followed by the info log, a
    link failure as one line; nothing else is logged.  The two shaders and
    the program exist afterwards in every case. *)
Theorem createProgram_result (D : gl.Driver) (g : gl.State) :
  exists g' : gl.State,
    createProgram D g = (Ok (gl.nextName g + 2), g')
    /\ drop (length (gl.calls g)) (gl.calls g') = createProgram_calls D (gl.nextName g)
    /\ gl.messages g'
       = gl.messages g
         ++ shader_report "gltext: Error in vertex shader"
              (shader_result D gl.VERTEX_SHADER vertex_shader_source (gl.nextName g))
         ++ shader_report "gltext: Error in fragment shader"
              (shader_result D gl.FRAGMENT_SHADER fragment_shader_source (gl.nextName g + 1))
         ++ link_report D (gl.nextName g + 2)
    /\ gl.objects g'
       = {[ (gl.ShaderObj, gl.nextName g); (gl.ShaderObj, gl.nextName g + 1);
            (gl.ProgramObj, gl.nextName g + 2) ]} ∪ gl.objects g.
Proof.
  unfold createProgram, NewShader, NewProgram, report, createProgram_calls,
    NewShader_calls, NewProgram_calls, shader_report, shader_result, link_report.
  cbv [gl_bind gl_gen gl_call gl_query gl_ret log_print]. cbv beta iota zeta.
  destruct (gl.compile_status D gl.VERTEX_SHADER vertex_shader_source =? 0);
    cbv beta iota zeta;
    destruct (gl.compile_status D gl.FRAGMENT_SHADER fragment_shader_source =? 0);
    cbv beta iota zeta;
    cbn [gl.nextName gl.step gl.logged gl.print gl.create gl.set_objects fst snd];
    replace (gl.nextName g + 1 + 1) with (gl.nextName g + 2) by lia;
    destruct (gl.link_status D (gl.nextName g + 2) =? 0).
  all: eexists; split; [reflexivity|].
  all: cbn [gl.calls gl.messages gl.objects gl.step gl.logged gl.print gl.create
            gl.set_objects gl.nextName fst snd].
  all: split; [rewrite <- !app_assoc, drop_app_length; reflexivity|].
  all: split; [cbn [app]; rewrite <- ?app_assoc, ?app_nil_r; reflexivity|].
  all: set_solver.
Qed.

(** The run of [NewFont] on a font that loads: what it returns, the calls
    it makes, what it logs and the bindings it leaves. *)
Lemma NewFont_trace (P : Platform) (R : Rasterizer) (D : gl.Driver)
    (ReadFile : string -> GoResult (list Byte.byte))
    (ParseFont : list Byte.byte -> GoResult TTFont)
    fontPath scale dpi width height b font g :
  ReadFile fontPath = Value b ->
  ParseFont b = Value font ->
  exists (texture : RGBA R) (g' : gl.State),
    generateAtlas P R font scale dpi width height
    = Ok (atlas_verts P font scale width height, texture, atlas_offsets font scale width)
    /\ Rect texture = bitmap_bounds P font scale
    /\ NewFont P R D ReadFile ParseFont fontPath scale dpi width height g
       = (Ok (NewFont_result D (gl.nextName g) (atlas_offsets font scale width)), g')
    /\ gl.calls g'
       = gl.calls g ++ createProgram_calls D (gl.nextName g)
         ++ NewFont_calls D (gl.nextName g) (atlas_verts P font scale width height) texture
    /\ gl.messages g' = gl.messages g ++ createProgram_messages D (gl.nextName g)
    /\ gl.blend g' = gl.blend g
    /\ gl.blendFunc g' = gl.blendFunc g
    /\ gl.currentProgram g' = gl.currentProgram g
    /\ gl.vertexArrayBinding g' = 0
    /\ gl.arrayBufferBinding g' = 0
    /\ gl.textureBinding2D g' = gl.nextName g + 5.
Proof.
  intros Hread Hparse.
  destruct (generateAtlas_spec P R font scale dpi width height) as (img & Hatlas & Hrect).
  assert (Hcoords : slice_get (atlas_verts P font scale width height) 0
                    = Ok (nth 0 (atlas_verts P font scale width height)
                            (V4 F32.zero F32.zero F32.zero F32.zero))).
  { apply slice_get_in_range. rewrite length_atlas_verts. lia. }
  exists img. cut (exists g' : gl.State,
    NewFont P R D ReadFile ParseFont fontPath scale dpi width height g
    = (Ok (NewFont_result D (gl.nextName g) (atlas_offsets font scale width)), g')
    /\ gl.calls g'
       = gl.calls g ++ createProgram_calls D (gl.nextName g)
         ++ NewFont_calls D (gl.nextName g) (atlas_verts P font scale width height) img
    /\ gl.messages g' = gl.messages g ++ createProgram_messages D (gl.nextName g)
    /\ gl.blend g' = gl.blend g
    /\ gl.blendFunc g' = gl.blendFunc g
    /\ gl.currentProgram g' = gl.currentProgram g
    /\ gl.vertexArrayBinding g' = 0
    /\ gl.arrayBufferBinding g' = 0
    /\ gl.textureBinding2D g' = gl.nextName g + 5).
  { intros (g' & H). exists g'. split; [exact Hatlas|]. split; [exact Hrect | exact H]. }
  unfold NewFont, loadFont. rewrite Hread, Hparse, gl_bind_ret, Hatlas, gl_bind_lift_Ok.
  clear Hatlas Hrect.
  generalize dependent (atlas_verts P font scale width height). intros coords Hcoords.
  generalize (atlas_offsets font scale width). intros offs.
  unfold NewFont_calls.
  generalize (Dx (Rect img)) (Dy (Rect img)) (Pix img). intros bw bh pix.
  unfold createProgram, NewShader, NewProgram, report, NewFont_result, createProgram_calls,
    NewShader_calls, NewProgram_calls, NewFont_calls, createProgram_messages, shader_report,
    shader_result, link_report.
  cbv [gl_bind gl_gen gl_call gl_query gl_ret log_print]. cbv beta iota zeta.
  destruct (gl.compile_status D gl.VERTEX_SHADER vertex_shader_source =? 0);
    cbv beta iota zeta;
    destruct (gl.compile_status D gl.FRAGMENT_SHADER fragment_shader_source =? 0);
    cbv beta iota zeta;
    cbn [gl.nextName gl.step gl.logged gl.print gl.create gl.set_objects fst snd];
    replace (gl.nextName g + 1 + 1) with (gl.nextName g + 2) by lia;
    destruct (gl.link_status D (gl.nextName g + 2) =? 0);
    cbv beta iota zeta; unfold gl_lift; rewrite Hcoords; cbv beta iota zeta.
  all: cbn [gl.nextName gl.step gl.logged gl.print gl.create gl.set_objects
            gl.set_vertexArrayBinding gl.set_arrayBufferBinding gl.set_textureBinding2D
            fst snd].
  all: replace (gl.nextName g + 2 + 1 + 1 + 1) with (gl.nextName g + 5) by lia;
    replace (gl.nextName g + 2 + 1 + 1) with (gl.nextName g + 4) by lia;
    replace (gl.nextName g + 2 + 1) with (gl.nextName g + 3) by lia.
  all: eexists; split; [reflexivity|].
  all: cbn [gl.calls gl.messages gl.blend gl.blendFunc gl.currentProgram
            gl.vertexArrayBinding gl.arrayBufferBinding gl.textureBinding2D
            gl.nextName gl.step gl.logged gl.print gl.create gl.set_objects
            gl.set_vertexArrayBinding gl.set_arrayBufferBinding gl.set_textureBinding2D
            fst snd app].
  all: rewrite <- ?app_assoc, ?app_nil_r; cbn [app].
  all: repeat split; reflexivity.
Qed.

(** The drawing context after [n] rounds of the glyph loop. *)
Lemma glyph_loop_context (P : Platform) (R : Rasterizer) (font : TTFont) (scale : Z)
    (sx gw gh w h texWidth texHeight : float32) (n : nat) :
  forall (k : nat) (st st' : AtlasLoop R),
    gw = gw_px font scale ->
    st_gx st = glyph_gx font scale k ->
    (k + n <= 96)%nat ->
    glyph_loop P R font scale sx gw gh w h texWidth texHeight n (low + Z.of_nat k) st = Ok st' ->
    st_c st' = fold_left (draw_glyph P R font scale) (seq k n) (st_c st).
Proof.
  induction n as [|n IH]; intros k st st' Hgw Hgx Hk Hrun.
  - cbn in Hrun. injection Hrun as <-. reflexivity.
  - cbn [glyph_loop] in Hrun. unfold glyph_step in Hrun.
    destruct (slice_set _ _ _) as [offs|e]; [|discriminate].
    cbn [res_bind] in Hrun.
    replace (wrap32 (low + Z.of_nat k + 1)) with (low + Z.of_nat (S k)) in Hrun
      by (rewrite wrap32_small; unfold low; lia).
    apply IH in Hrun; [| exact Hgw | | lia].
    + rewrite Hrun. cbn [st_c seq fold_left]. unfold draw_glyph at 3, gy.
      rewrite Hgx. reflexivity.
    + cbn [st_gx]. rewrite Hgx, Hgw. reflexivity.
Qed.

(** X4. On a font that loads, [NewFont] makes the calls of
    [createProgram] and then, in this order: a vertex array created and
    bound, a buffer created, bound and filled with the 384 atlas vertices
    (16 bytes each, 6144 bytes), the location of the position attribute
    asked for, the attribute described as four floats per vertex and enabled,
    the buffer unbound, the locations of the uniforms tex, offset and color
    asked for, a texture created, bound and given the atlas bitmap (its
    width, its height and the pixels [generateAtlas] returned), the vertex
    array unbound.  The renderer holds the program, the vertex array, the
    buffer, the locations the driver gave for position, offset and color,
    and the advance table. *)
Theorem NewFont_calls_in_order (P : Platform) (R : Rasterizer) (D : gl.Driver)
    (ReadFile : string -> GoResult (list Byte.byte))
    (ParseFont : list Byte.byte -> GoResult TTFont)
    (fontPath : string) (scale : Z) (dpi : float64) (width height : float32)
    (b : list Byte.byte) (font : TTFont) (g : gl.State) :
  ReadFile fontPath = Value b ->
  ParseFont b = Value font ->
  exists (texture : RGBA R) (g' : gl.State),
    generateAtlas P R font scale dpi width height
    = Ok (atlas_verts P font scale width height, texture, atlas_offsets font scale width)
    /\ NewFont P R D ReadFile ParseFont fontPath scale dpi width height g
       = (Ok (NewFont_result D (gl.nextName g) (atlas_offsets font scale width)), g')
    /\ drop (length (gl.calls g)) (gl.calls g')
       = createProgram_calls D (gl.nextName g)
         ++ NewFont_calls D (gl.nextName g) (atlas_verts P font scale width height) texture
    /\ In (gl.BufferData gl.ARRAY_BUFFER 6144 (atlas_verts P font scale width height)
             gl.STATIC_DRAW)
          (drop (length (gl.calls g)) (gl.calls g'))
    /\ In (gl.TexImage2D gl.TEXTURE_2D 0 gl.RGBA (bitmap_width P font scale)
             (bitmap_height P font scale) 0 gl.RGBA gl.UNSIGNED_BYTE (Ctx R) (Pix texture))
          (drop (length (gl.calls g)) (gl.calls g')).
Proof.
  intros Hread Hparse.
  destruct (NewFont_trace P R D ReadFile ParseFont fontPath scale dpi width height
              b font g Hread Hparse) as (texture & g' & Hatlas & Hrect & Hrun & Hcalls & _).
  exists texture, g'. split; [exact Hatlas|]. split; [exact Hrun|].
  rewrite Hcalls, drop_app_length. split; [reflexivity|].
  split; apply in_or_app; right; unfold NewFont_calls.
  - rewrite length_atlas_verts. change (16 * Z.of_nat 384) with 6144.
    do 4 right. left. reflexivity.
  - unfold bitmap_width, bitmap_height. rewrite <- Hrect.
    do 21 right. left. reflexivity.
Qed.

Lemma NewFont_calls_in_order_witness :
  one_file "mono.ttf" = Value []
  /\ parse_mono [] = Value mono_font
  /\ exists (texture : RGBA recording_rasterizer) (g' : gl.State),
       NewFont spec_platform recording_rasterizer good_driver one_file parse_mono
         "mono.ttf" 12 dpi72 (F32.of_Z 800) (F32.of_Z 600) gl.initial
       = (Ok (NewFont_result good_driver 1 (atlas_offsets mono_font 12 (F32.of_Z 800))), g')
       /\ In (gl.TexImage2D gl.TEXTURE_2D 0 gl.RGBA
                (bitmap_width spec_platform mono_font 12)
                (bitmap_height spec_platform mono_font 12) 0 gl.RGBA gl.UNSIGNED_BYTE
                (Ctx recording_rasterizer) (Pix texture))
            (drop (length (gl.calls gl.initial)) (gl.calls g'))
       /\ bitmap_width spec_platform mono_font 12 = 1024
       /\ bitmap_height spec_platform mono_font 12 = 16.
Proof.
  split; [reflexivity|]. split; [reflexivity|].
  destruct (NewFont_calls_in_order spec_platform recording_rasterizer good_driver one_file
              parse_mono "mono.ttf" 12 dpi72 (F32.of_Z 800) (F32.of_Z 600) [] mono_font
              gl.initial eq_refl eq_refl)
    as (texture & g' & _ & H1 & _ & _ & H4).
  exists texture, g'. split; [exact H1|]. split; [exact H4|].
  split; vm_compute; reflexivity.
Defined.

(** X5. [NewFont] never makes its program current: it issues no
    [UseProgram], so the current program is the caller's throughout,
    also when the sampler uniform is set.  On return no vertex array and no
    array buffer is bound, the new texture is still bound to TEXTURE_2D and
    exists, blending is as before, and the log has grown by what
    [createProgram] reported. *)
Theorem NewFont_leaves_bindings (P : Platform) (R : Rasterizer) (D : gl.Driver)
    (ReadFile : string -> GoResult (list Byte.byte))
    (ParseFont : list Byte.byte -> GoResult TTFont)
    (fontPath : string) (scale : Z) (dpi : float64) (width height : float32)
    (b : list Byte.byte) (font : TTFont) (g : gl.State) :
  ReadFile fontPath = Value b ->
  ParseFont b = Value font ->
  exists (this : Font) (g' : gl.State),
    NewFont P R D ReadFile ParseFont fontPath scale dpi width height g = (Ok this, g')
    /\ filter (fun call => is_UseProgram call) (drop (length (gl.calls g)) (gl.calls g')) = []
    /\ gl.currentProgram g' = gl.currentProgram g
    /\ gl.vertexArrayBinding g' = 0
    /\ gl.arrayBufferBinding g' = 0
    /\ gl.textureBinding2D g' = gl.nextName g + 5
    /\ ((gl.TextureObj, gl.nextName g + 5) ∈ gl.objects g')
    /\ gl.blend g' = gl.blend g
    /\ gl.blendFunc g' = gl.blendFunc g
    /\ gl.messages g' = gl.messages g ++ createProgram_messages D (gl.nextName g).
Proof.
  intros Hread Hparse.
  destruct (NewFont_trace P R D ReadFile ParseFont fontPath scale dpi width height
              b font g Hread Hparse)
    as (texture & g' & _ & _ & Hrun & Hcalls & Hmsg & Hb & Hbf & Hcp & Hva & Hab & Htb).
  destruct (NewFont_spec P R D ReadFile ParseFont fontPath scale dpi width height
              b font g Hread Hparse)
    as (this0 & g0 & Hrun0 & _ & _ & _ & _ & _ & _ & _ & Hobj & _).
  rewrite Hrun in Hrun0. injection Hrun0 as _ <-.
  eexists. exists g'. split; [exact Hrun|].
  split.
  { rewrite Hcalls, drop_app_length.
    unfold createProgram_calls, NewShader_calls.
    destruct (gl.compile_status D gl.VERTEX_SHADER vertex_shader_source =? 0);
      destruct (gl.compile_status D gl.FRAGMENT_SHADER fragment_shader_source =? 0);
      reflexivity. }
  repeat (split; [assumption|]).
  split; [rewrite Hobj; set_solver|].
  repeat (split; [assumption|]). assumption.
Qed.

Lemma NewFont_leaves_bindings_witness :
  one_file "mono.ttf" = Value []
  /\ parse_mono [] = Value mono_font
  /\ exists (this : Font) (g' : gl.State),
       NewFont spec_platform null_rasterizer bad_driver one_file parse_mono
         "mono.ttf" 12 dpi72 (F32.of_Z 800) (F32.of_Z 600) busy_context = (Ok this, g')
       /\ gl.currentProgram g' = 7
       /\ gl.vertexArrayBinding g' = 0
       /\ gl.textureBinding2D g' = 6
       /\ gl.blend g' = true
       /\ gl.messages g'
          = [ "gltext: Error in vertex shader"; "0:1: syntax error";
              "gltext: Error linking shader program" ]%string.
Proof.
  split; [reflexivity|]. split; [reflexivity|].
  destruct (NewFont_leaves_bindings spec_platform null_rasterizer bad_driver one_file
              parse_mono "mono.ttf" 12 dpi72 (F32.of_Z 800) (F32.of_Z 600) [] mono_font
              busy_context eq_refl eq_refl)
    as (this & g' & H1 & _ & H3 & H4 & _ & H6 & _ & H8 & _ & H10).
  exists this, g'. repeat split; assumption.
Defined.

(** The draws of characters that have a glyph stay inside the 384
    vertices of the atlas, and there is one of them per character. *)
Lemma glyph_draws_within this x y s :
  Forall in_glyph_range s ->
  forall total, Forall (draw_within 384) (glyph_draws this x y s total).
Proof.
  induction 1 as [|ch s Hch Hs IH]; intros total; cbn [glyph_draws].
  - constructor.
  - unfold in_glyph_range in Hch.
    constructor; [exact I|]. constructor; [|apply IH].
    cbn. split; [reflexivity|]. split; [reflexivity|].
    split; [exists (ch - 32); lia | lia].
Qed.

Lemma glyph_draws_count this x y s :
  forall total,
    length (filter (fun call => is_draw call) (glyph_draws this x y s total)) = length s.
Proof.
  induction s as [|ch s IH]; intros total; [reflexivity|].
  cbn [glyph_draws]. rewrite filter_cons_False by (cbn; auto).
  rewrite filter_cons_True by (cbn; auto). cbn [length]. f_equal. apply IH.
Qed.

(** X6. A renderer built by [NewFont] prints every string of characters
    32..127: [Printf] returns, it makes the renderer's program current and
    binds its vertex array, and it issues one draw per character, each a
    triangle strip of four vertices that starts at a multiple of four and
    lies inside the buffer [NewFont] uploaded.  The objects of the context
    are the same after the call. *)
Theorem Printf_after_NewFont (P : Platform) (R : Rasterizer) (D : gl.Driver)
    (ReadFile : string -> GoResult (list Byte.byte))
    (ParseFont : list Byte.byte -> GoResult TTFont)
    (fontPath : string) (scale : Z) (dpi : float64) (width height : float32)
    (b : list Byte.byte) (font : TTFont) (x y : float32) (s : list Z) (g : gl.State) :
  ReadFile fontPath = Value b ->
  ParseFont b = Value font ->
  Forall in_glyph_range s ->
  exists (this : Font) (g1 g2 : gl.State),
    NewFont P R D ReadFile ParseFont fontPath scale dpi width height g = (Ok this, g1)
    /\ Printf this x y s g1 = (Ok tt, g2)
    /\ In (gl.UseProgram (gl.nextName g + 2)) (drop (length (gl.calls g1)) (gl.calls g2))
    /\ In (gl.BindVertexArray (gl.nextName g + 3))
          (drop (length (gl.calls g1)) (gl.calls g2))
    /\ Forall (draw_within (Z.of_nat (length (atlas_verts P font scale width height))))
         (drop (length (gl.calls g1)) (gl.calls g2))
    /\ length (filter (fun call => is_draw call)
                 (drop (length (gl.calls g1)) (gl.calls g2))) = length s
    /\ gl.objects g2 = gl.objects g1.
Proof.
  intros Hread Hparse Hs.
  destruct (NewFont_trace P R D ReadFile ParseFont fontPath scale dpi width height
              b font g Hread Hparse) as (texture & g1 & _ & _ & Hrun & _).
  set (this := NewFont_result D (gl.nextName g) (atlas_offsets font scale width)) in *.
  assert (Hlen : length (offsets this) = 96%nat) by reflexivity.
  exists this, g1. eexists. split; [exact Hrun|].
  split; [apply Printf_in_range; assumption|].
  rewrite calls_gl_run, drop_app_length, length_atlas_verts.
  change (Z.of_nat 384) with 384.
  split; [cbn; auto|]. split; [cbn; auto|].
  split; [|split].
  - apply Forall_app. split; [repeat constructor|].
    apply Forall_app. split; [apply glyph_draws_within; exact Hs | repeat constructor].
  - rewrite !filter_app, !length_app, glyph_draws_count.
    replace (filter (fun call => is_draw call) (Printf_prologue this)) with (@nil gl.Call)
      by reflexivity.
    replace (filter (fun call => is_draw call) Printf_epilogue) with (@nil gl.Call)
      by reflexivity.
    cbn [length]. lia.
  - destruct (Printf_final_context this x y s g1) as (_ & _ & _ & _ & _ & _ & H & _).
    exact H.
Qed.

Lemma Printf_after_NewFont_witness :
  one_file "mono.ttf" = Value []
  /\ parse_mono [] = Value mono_font
  /\ Forall in_glyph_range [72; 105; 126]
  /\ exists (this : Font) (g1 g2 : gl.State),
       NewFont spec_platform null_rasterizer good_driver one_file parse_mono
         "mono.ttf" 12 dpi72 (F32.of_Z 800) (F32.of_Z 600) gl.initial = (Ok this, g1)
       /\ Printf this F32.zero F32.zero [72; 105; 126] g1 = (Ok tt, g2)
       /\ length (filter (fun call => is_draw call)
                    (drop (length (gl.calls g1)) (gl.calls g2))) = 3%nat.
Proof.
  assert (Hs : Forall in_glyph_range [72; 105; 126])
    by (repeat constructor; unfold in_glyph_range; lia).
  split; [reflexivity|]. split; [reflexivity|]. split; [exact Hs|].
  destruct (Printf_after_NewFont spec_platform null_rasterizer good_driver one_file
              parse_mono "mono.ttf" 12 dpi72 (F32.of_Z 800) (F32.of_Z 600) [] mono_font
              F32.zero F32.zero [72; 105; 126] gl.initial eq_refl eq_refl Hs)
    as (this & g1 & g2 & H1 & H2 & _ & _ & _ & H6 & _).
  exists this, g1, g2. repeat split; assumption.
Defined.

(** X7. The character loop of [Printf] over a concatenation is the loop
    over the first part followed by the loop over the second part, started
    at the running offset the first part reached; when the first part
    panics, nothing of the second part is done. *)
Theorem draw_runes_app (this : Font) (x y : float32) (s1 s2 : list Z)
    (totalOffset : float32) (g : gl.State) :
  draw_runes this x y (s1 ++ s2) totalOffset g
  = match draw_runes this x y s1 totalOffset g with
    | (Ok totalOffset', g') => draw_runes this x y s2 totalOffset' g'
    | (Abort e, g') => (Abort e, g')
    end.
Proof.
  revert totalOffset g. induction s1 as [|ch s1 IH]; intros totalOffset g; [reflexivity|].
  cbn [app draw_runes]. unfold gl_bind at 1 3. unfold gl_lift.
  destruct (slice_get (offsets this) (wrap32 (ch - 32))) as [offset|e]; [|reflexivity].
  rewrite !gl_bind_call. apply IH.
Qed.

(** The character loop up to the first character without a glyph. *)
Lemma draw_runes_stops this x y s1 ch s2 :
  length (offsets this) = 96%nat ->
  Forall in_glyph_range s1 ->
  is_rune ch ->
  ~ in_glyph_range ch ->
  forall total g,
    draw_runes this x y (s1 ++ ch :: s2) total g
    = (Abort (IndexOutOfRange (ch - 32) 96), gl_run (glyph_draws this x y s1 total) g).
Proof.
  intros Hlen Hs1 Hr Hch. induction Hs1 as [|c s1 Hc Hs1 IH]; intros total g.
  - unfold is_rune in Hr. unfold in_glyph_range in Hch.
    cbn [app draw_runes glyph_draws gl_run fold_left].
    rewrite wrap32_small by lia.
    rewrite slice_get_out_of_range by (rewrite Hlen; lia).
    rewrite Hlen. reflexivity.
  - unfold in_glyph_range in Hc.
    cbn [app draw_runes glyph_draws gl_run fold_left].
    rewrite wrap32_small by lia.
    rewrite (slice_get_in_range _ _ F32.zero) by (rewrite Hlen; lia).
    unfold gl_bind at 1. unfold gl_lift. rewrite !gl_bind_call.
    apply IH.
Qed.

(** X8. When the formatted string has a character without a glyph,
    [Printf] panics at the first such character: the characters before it
    have been drawn, none after it, and the calls that end [Printf] are not
    made.  The context is left with blending enabled, the renderer's
    program current and its vertex array bound. *)
Theorem Printf_panic_skips_epilogue (this : Font) (x y : float32) (s1 : list Z) (ch : Z)
    (s2 : list Z) (g : gl.State) :
  length (offsets this) = 96%nat ->
  Forall in_glyph_range s1 ->
  is_rune ch ->
  ~ in_glyph_range ch ->
  exists g' : gl.State,
    Printf this x y (s1 ++ ch :: s2) g = (Abort (IndexOutOfRange (ch - 32) 96), g')
    /\ gl.calls g'
       = gl.calls g ++ Printf_prologue this ++ glyph_draws this x y s1 F32.zero
    /\ gl.blend g' = true
    /\ gl.blendFunc g' = (gl.SRC_ALPHA, gl.ONE_MINUS_SRC_ALPHA)
    /\ gl.currentProgram g' = program this
    /\ gl.vertexArrayBinding g' = vao this.
Proof.
  intros Hlen Hs1 Hr Hch.
  exists (gl_run (Printf_prologue this ++ glyph_draws this x y s1 F32.zero) g).
  split.
  { unfold Printf. rewrite !gl_bind_call. unfold gl_bind at 1.
    rewrite (draw_runes_stops this x y s1 ch s2 Hlen Hs1 Hr Hch).
    rewrite gl_run_app. reflexivity. }
  split; [apply calls_gl_run|].
  rewrite gl_run_app.
  destruct (same_context_glyph_draws this x y s1 F32.zero (gl_run (Printf_prologue this) g))
    as (Hb & Hbf & Hcp & Hva & _).
  rewrite Hb, Hbf, Hcp, Hva. repeat split.
Qed.

Lemma Printf_panic_skips_epilogue_witness :
  length (offsets demo_Font) = 96%nat
  /\ Forall in_glyph_range [65]
  /\ is_rune 10
  /\ ~ in_glyph_range 10
  /\ exists g' : gl.State,
       Printf demo_Font F32.zero F32.zero ([65] ++ 10 :: [66]) gl.initial
       = (Abort (IndexOutOfRange (10 - 32) 96), g')
       /\ gl.calls g'
          = gl.calls gl.initial ++ Printf_prologue demo_Font
            ++ glyph_draws demo_Font F32.zero F32.zero [65] F32.zero
       /\ gl.blend g' = true.
Proof.
  assert (Hlen : length (offsets demo_Font) = 96%nat) by reflexivity.
  assert (Hs : Forall in_glyph_range [65])
    by (repeat constructor; unfold in_glyph_range; lia).
  assert (Hr : is_rune 10) by (unfold is_rune; lia).
  assert (Hch : ~ in_glyph_range 10) by (unfold in_glyph_range; lia).
  split; [exact Hlen|]. split; [exact Hs|]. split; [exact Hr|]. split; [exact Hch|].
  destruct (Printf_panic_skips_epilogue demo_Font F32.zero F32.zero [65] 10 [66]
              gl.initial Hlen Hs Hr Hch) as (g' & H1 & H2 & H3 & _).
  exists g'. repeat split; assumption.
Defined.

(** X9. [Delete] never fails, whatever the renderer and the context.  It
    passes the two shader handles, the program, the buffer and the vertex
    array to GL, in this order, and nothing else: of the objects of the
    context it removes at most these five, so every texture stays.  A second
    [Delete] of the same renderer removes nothing more. *)
Theorem Delete_effect (this : Font) (g : gl.State) :
  exists g' : gl.State,
    Delete this g = (Ok tt, g')
    /\ drop (length (gl.calls g)) (gl.calls g')
       = [ gl.DeleteShader (vs this); gl.DeleteShader (fs this);
           gl.DeleteProgram (program this); gl.DeleteBuffer (vbo this);
           gl.DeleteVertexArray (vao this) ]
    /\ gl.objects g'
       = gl.objects g ∖ {[ (gl.ShaderObj, vs this); (gl.ShaderObj, fs this);
                           (gl.ProgramObj, program this); (gl.BufferObj, vbo this);
                           (gl.VertexArrayObj, vao this) ]}
    /\ (forall t : Z, (gl.TextureObj, t) ∈ gl.objects g' <-> (gl.TextureObj, t) ∈ gl.objects g)
    /\ fst (Delete this g') = Ok tt
    /\ gl.objects (snd (Delete this g')) = gl.objects g'.
Proof.
  exists (snd (Delete this g)). split; [reflexivity|].
  split; [rewrite Delete_spec; cbn [snd]; rewrite calls_gl_run, drop_app_length; reflexivity|].
  split; [apply objects_after_Delete|].
  split; [intros t; rewrite objects_after_Delete; set_solver|].
  split; [reflexivity|].
  rewrite !objects_after_Delete. set_solver.
Qed.

(** The pixels of the atlas, step by step. *)
Lemma atlas_pixels_eq (P : Platform) (R : Rasterizer) (font : TTFont) (scale : Z)
    (dpi : float64) :
  atlas_pixels P R font scale dpi
  = fold_left (draw_glyph P R font scale) (seq 0 96) (context_setup P R font scale dpi).
Proof. reflexivity. Qed.

(** X10. [generateAtlas] sets the drawing context up once (destination
    and clip rectangle the atlas bitmap, white source, resolution, font size,
    font, in this order) and then draws each of the characters 32..127
    exactly once, in ascending order, with the pen at the left edge of the
    character's cell and at the baseline the context gives for the font size.
    The bitmap returned is the one this context has drawn into, with the
    bounds of the atlas. *)
Theorem generateAtlas_pixels (P : Platform) (R : Rasterizer) (font : TTFont) (scale : Z)
    (dpi : float64) (width height : float32) :
  generateAtlas P R font scale dpi width height
  = Ok (atlas_verts P font scale width height,
        {| Rect := bitmap_bounds P font scale; Pix := atlas_pixels P R font scale dpi |},
        atlas_offsets font scale width).
Proof.
  rewrite atlas_pixels_eq.
  unfold generateAtlas.
  match goal with
  | |- context [glyph_loop _ _ _ _ _ _ _ _ _ _ _ ?n ?ch ?st] =>
      destruct (glyph_loop_spec P R font scale width height 96 0 st)
        as (st' & Hrun & _ & _ & Hv & Ho); [reflexivity | lia | reflexivity |];
      pose proof (glyph_loop_context P R font scale _ _ _ _ _ _ _ 96 0 st st'
                     eq_refl eq_refl ltac:(lia) Hrun) as Hc
  end.
  change (Z.to_nat (high - low + 1)) with 96%nat.
  change (low + Z.of_nat 0) with low in Hrun.
  unfold clip_sx, cell_w, cell_h, clip_sx, clip_sy, gw_px, gh_px, bitmap_width,
    bitmap_height, bitmap_bounds, computed_width, computed_height, gw_px, gh_px in Hrun.
  rewrite Hrun. cbn [res_bind].
  assert (Hv' : st_verts st' = atlas_verts P font scale width height).
  { rewrite Hv. cbn [st_verts app]. unfold atlas_verts, glyph_quad, glyph_gx. reflexivity. }
  assert (Ho' : st_offsets st' = atlas_offsets font scale width).
  { rewrite Ho. cbn [st_offsets]. rewrite take_0, drop_ge, app_nil_r by reflexivity.
    reflexivity. }
  rewrite Hv', Ho'. cbn [st_c] in Hc. rewrite Hc.
  reflexivity.
Qed.
